(** * Medicine Tracker: the CRUD endpoints of [main.py] over a one-table store

    The development embeds [src/main.py] shallowly.  Each endpoint is a
    computation in a small state-and-exception monad over a [World]: the
    [medicine] table of the database and the files of the upload directory.

    The storage session ([session.get], [session.add], [session.commit],
    [session.refresh], [session.delete], [session.exec]) is modelled as the
    relational engine behaves for the schema the source declares:
    - the primary key [id] is an integer the engine assigns on insertion,
      one more than the largest key in use;
    - the columns of the fields typed [str] and [bool] ([name], [dose],
      [time_of_day], [active]) are NOT NULL, those typed [Optional[str]]
      ([notes], [prescription_url]) are nullable, and a statement that would
      store NULL in a NOT NULL column fails with an integrity error;
    - a [select] without ORDER BY scans the table in key order.
    Keys are unbounded integers, and faults of the engine other than the
    integrity error are left out.  The engine itself holds signed 64-bit
    keys: it refuses an id outside that range, and it stops counting
    upwards once the largest key is in use.  The statements that depend on
    either say so through [int64].

    Of the file system the model keeps the content of each file by the
    string of its path and the set of paths that cannot be opened for
    writing; directories, other spellings of a path and the database file
    are not part of it.  An endpoint that answers with a [FileResponse]
    returns the response object; serving the file, and the static mounts
    of the application, are the framework's part. *)

From Stdlib Require Import ZArith Ascii String DecimalString DecimalPos DecimalZ.
From stdpp Require Import gmap strings list sorting.

Local Open Scope string_scope.
Local Open Scope list_scope.
Local Open Scope Z_scope.

(** ** Data model *)

(** [class MedicineBase(SQLModel)]: the validated fields.  [MedicineCreate]
    adds nothing to it, and a row of the table carries exactly these columns
    next to its key. *)
Module MedicineBase.
Record t : Type := mk {
  name : string;
  dose : string;
  time_of_day : string;
  notes : option string;
  active : bool;
  prescription_url : option string
}.
End MedicineBase.

(** [class MedicineCreate(MedicineBase): pass]. *)
Definition MedicineCreate : Type := MedicineBase.t.

(** [class Medicine(MedicineBase, table=True)]: the mapped object the session
    hands out.  A table model is not validated on assignment, so after
    [setattr] every attribute may hold [None]; [id] is [None] until the
    engine has assigned the key. *)
Module Medicine.
Record t : Type := mk {
  id : option Z;
  name : option string;
  dose : option string;
  time_of_day : option string;
  notes : option string;
  active : option bool;
  prescription_url : option string
}.

(** [Medicine.from_orm(medicine)] for a [MedicineCreate]. *)
Definition from_orm (m : MedicineCreate) : t :=
  {| id := None;
     name := Some (MedicineBase.name m);
     dose := Some (MedicineBase.dose m);
     time_of_day := Some (MedicineBase.time_of_day m);
     notes := MedicineBase.notes m;
     active := Some (MedicineBase.active m);
     prescription_url := MedicineBase.prescription_url m |}.

(** The object loaded from the row stored under key [k]. *)
Definition of_row (k : Z) (r : MedicineBase.t) : t :=
  {| id := Some k;
     name := Some (MedicineBase.name r);
     dose := Some (MedicineBase.dose r);
     time_of_day := Some (MedicineBase.time_of_day r);
     notes := MedicineBase.notes r;
     active := Some (MedicineBase.active r);
     prescription_url := MedicineBase.prescription_url r |}.

(** The row an INSERT or UPDATE writes for the object; [None] when a
    column declared NOT NULL ([name], [dose], [time_of_day], [active]: the
    fields whose type is not [Optional]) would receive NULL. *)
Definition to_row (m : t) : option MedicineBase.t :=
  match name m, dose m, time_of_day m, active m with
  | Some n, Some d, Some t, Some a =>
      Some {| MedicineBase.name := n;
              MedicineBase.dose := d;
              MedicineBase.time_of_day := t;
              MedicineBase.notes := notes m;
              MedicineBase.active := a;
              MedicineBase.prescription_url := prescription_url m |}
  | _, _, _, _ => None
  end.
End Medicine.

(** [class MedicineRead(MedicineBase)] with [id: int]: the response model. *)
Module MedicineRead.
Record t : Type := mk {
  id : Z;
  name : string;
  dose : string;
  time_of_day : string;
  notes : option string;
  active : bool;
  prescription_url : option string
}.

(** Response validation of a mapped object against the model. *)
Definition from_orm (m : Medicine.t) : option t :=
  match Medicine.id m, Medicine.to_row m with
  | Some k, Some r =>
      Some {| id := k;
              name := MedicineBase.name r;
              dose := MedicineBase.dose r;
              time_of_day := MedicineBase.time_of_day r;
              notes := MedicineBase.notes r;
              active := MedicineBase.active r;
              prescription_url := MedicineBase.prescription_url r |}
  | _, _ => None
  end.

(** The response for the row stored under key [k]. *)
Definition of_row (k : Z) (r : MedicineBase.t) : t :=
  {| id := k;
     name := MedicineBase.name r;
     dose := MedicineBase.dose r;
     time_of_day := MedicineBase.time_of_day r;
     notes := MedicineBase.notes r;
     active := MedicineBase.active r;
     prescription_url := MedicineBase.prescription_url r |}.
End MedicineRead.

(** [class MedicineUpdate(SQLModel)]: every field is [Optional] with default
    [None].  The outer [option] records whether the request body set the
    field at all (what [exclude_unset] looks at); the inner one is the value,
    which may be an explicit [null]. *)
Module MedicineUpdate.
Record t : Type := mk {
  name : option (option string);
  dose : option (option string);
  time_of_day : option (option string);
  notes : option (option string);
  active : option (option bool);
  prescription_url : option (option string)
}.
End MedicineUpdate.

(** One item of [medicine_update.dict(exclude_unset=True)]: a field name
    with the value of that field's type. *)
Inductive item : Type :=
  | item_name (v : option string)
  | item_dose (v : option string)
  | item_time_of_day (v : option string)
  | item_notes (v : option string)
  | item_active (v : option bool)
  | item_prescription_url (v : option string).

(** [medicine_update.dict(exclude_unset=True).items()], in the order the
    fields are declared. *)
Definition dict_exclude_unset (u : MedicineUpdate.t) : list item :=
  option_list (item_name <$> MedicineUpdate.name u) ++
  option_list (item_dose <$> MedicineUpdate.dose u) ++
  option_list (item_time_of_day <$> MedicineUpdate.time_of_day u) ++
  option_list (item_notes <$> MedicineUpdate.notes u) ++
  option_list (item_active <$> MedicineUpdate.active u) ++
  option_list (item_prescription_url <$> MedicineUpdate.prescription_url u).

(** [setattr(med, key, value)]. *)
Definition setattr (med : Medicine.t) (kv : item) : Medicine.t :=
  let '(Medicine.mk i n d t o a p) := med in
  match kv with
  | item_name v => Medicine.mk i v d t o a p
  | item_dose v => Medicine.mk i n v t o a p
  | item_time_of_day v => Medicine.mk i n d v o a p
  | item_notes v => Medicine.mk i n d t v a p
  | item_active v => Medicine.mk i n d t o v p
  | item_prescription_url v => Medicine.mk i n d t o a v
  end.

(** [UploadFile]: the client's file name and the bytes of the part. *)
Module UploadFile.
Record t : Type := mk {
  filename : string;
  file : list Byte.byte
}.
End UploadFile.

(** ** The world the endpoints run in *)

(** The [medicine] table maps a primary key to its row.  [files] holds the
    content of every file on disk by path.  [unwritable] lists the paths the
    operating system refuses to open for writing (a missing parent
    directory, a directory of that name, a permission), each with the text
    of the error it reports.  Directories themselves are not modelled. *)
Record World : Type := mkWorld {
  medicine : gmap Z MedicineBase.t;
  files : gmap string (list Byte.byte);
  unwritable : gmap string string
}.

Definition with_medicine (w : World) (t : gmap Z MedicineBase.t) : World :=
  {| medicine := t; files := files w; unwritable := unwritable w |}.

Definition with_files (w : World) (f : gmap string (list Byte.byte)) : World :=
  {| medicine := medicine w; files := f; unwritable := unwritable w |}.

(** ** Exceptions and the endpoint monad *)

Inductive exn : Type :=
  | HTTPException (status_code : Z) (detail : string)
  | IntegrityError
  | InvalidRequestError
  | ResponseValidationError
  | OSError (strerror : string).

(** [str(e)]. *)
Definition str (e : exn) : string :=
  match e with
  | HTTPException _ detail => detail
  | IntegrityError => "NOT NULL constraint failed"
  | InvalidRequestError => "Could not refresh instance"
  | ResponseValidationError => "response validation error"
  | OSError s => s
  end.

Inductive outcome (A : Type) : Type :=
  | Return (a : A)
  | Raise (e : exn).
Arguments Return {A} a.
Arguments Raise {A} e.

Definition M (A : Type) : Type := World → outcome A * World.

Global Instance M_ret : MRet M := λ A a w, (Return a, w).

Global Instance M_bind : MBind M := λ A B f c w,
  match c w with
  | (Return a, w') => f a w'
  | (Raise e, w') => (Raise e, w')
  end.

Global Instance M_fmap : FMap M := λ A B f c w,
  match c w with
  | (Return a, w') => (Return (f a), w')
  | (Raise e, w') => (Raise e, w')
  end.

Definition raise {A} (e : exn) : M A := λ w, (Raise e, w).

(** [try: c  except Exception as e: h e]. *)
Definition try_except {A} (c : M A) (h : exn → M A) : M A := λ w,
  match c w with
  | (Return a, w') => (Return a, w')
  | (Raise e, w') => h e w'
  end.

(** The status line the framework sends: 200 for a returned value, the
    status of an [HTTPException], 500 for any exception left unhandled. *)
Definition status {A} (o : outcome A) : Z :=
  match o with
  | Return _ => 200
  | Raise (HTTPException c _) => c
  | Raise _ => 500
  end.

(** ** The storage session *)

(** The key the engine gives a row inserted without one: one more than the
    largest key in use, and 1 in an empty table.  (Once the largest signed
    64-bit key is in use the engine no longer counts upwards; that state is
    outside the model.) *)
Definition next_rowid (t : gmap Z MedicineBase.t) : Z :=
  match elements (dom t) with
  | [] => 1
  | k :: ks => foldr Z.max k ks + 1
  end.

(** The keys of the table in the order a scan visits them. *)
Definition rowids (t : gmap Z MedicineBase.t) : list Z :=
  merge_sort Z.le (elements (dom t)).

(** [session.get(Medicine, medicine_id)], for an id the engine can hold
    (see [int64]); the call does not answer for an id outside that range. *)
Definition session_get (medicine_id : Z) : M (option Medicine.t) := λ w,
  (Return (Medicine.of_row medicine_id <$> medicine w !! medicine_id), w).

(** [session.add(obj); session.commit()].  An object without a key is
    inserted under [next_rowid]; an object loaded from the table is written
    back under its key.  The statement fails, and the transaction leaves the
    table as it was, when a NOT NULL column would receive NULL.  The object
    comes back with its key set. *)
Definition session_add_commit (obj : Medicine.t) : M Medicine.t := λ w,
  match Medicine.to_row obj with
  | None => (Raise IntegrityError, w)
  | Some r =>
      let k := default (next_rowid (medicine w)) (Medicine.id obj) in
      (Return (Medicine.of_row k r), with_medicine w (<[k:=r]> (medicine w)))
  end.

(** [session.refresh(obj)]: the attributes are read again from the row. *)
Definition session_refresh (obj : Medicine.t) : M Medicine.t := λ w,
  match Medicine.id obj ≫= λ k, Medicine.of_row k <$> medicine w !! k with
  | Some obj' => (Return obj', w)
  | None => (Raise InvalidRequestError, w)
  end.

(** [session.delete(obj); session.commit()]. *)
Definition session_delete_commit (obj : Medicine.t) : M unit := λ w,
  match Medicine.id obj with
  | Some k => (Return (), with_medicine w (delete k (medicine w)))
  | None => (Raise InvalidRequestError, w)
  end.

(** [select(Medicine)], possibly narrowed by
    [.where(Medicine.time_of_day == v)]. *)
Record statement : Type := mkStatement {
  where_time_of_day : option string
}.

Definition select_Medicine : statement := {| where_time_of_day := None |}.

Definition where_ (s : statement) (v : string) : statement :=
  {| where_time_of_day := Some v |}.

(** Does the row satisfy the statement's WHERE clause? *)
Definition satisfies (s : statement) (r : MedicineBase.t) : bool :=
  match where_time_of_day s with
  | None => true
  | Some v => bool_decide (MedicineBase.time_of_day r = v)
  end.

(** The rows of the table with their keys, in key order. *)
Definition rows (t : gmap Z MedicineBase.t) : list (Z * MedicineBase.t) :=
  omap (λ k, (k,.) <$> t !! k) (rowids t).

(** The rows a scan of the table yields for the statement. *)
Definition scan (s : statement) (t : gmap Z MedicineBase.t)
    : list (Z * MedicineBase.t) :=
  filter (λ kr, satisfies s kr.2 = true) (rows t).

(** [session.exec(statement).all()]. *)
Definition session_exec_all (s : statement) : M (list Medicine.t) := λ w,
  (Return (uncurry Medicine.of_row <$> scan s (medicine w)), w).

(** ** The file system calls *)

Definition UPLOAD_DIR : string := "prescriptions".

(** [os.path.join(a, b)] on a POSIX system: an absolute [b] discards [a];
    otherwise the two are joined by one separator. *)
Fixpoint endswith_sep (s : string) : bool :=
  match s with
  | EmptyString => false
  | String c EmptyString => bool_decide (c = "/"%char)
  | String _ s' => endswith_sep s'
  end.

Definition os_path_join (a b : string) : string :=
  match b with
  | String "/"%char _ => b
  | _ =>
      if bool_decide (a = "") || endswith_sep a then a +:+ b
      else a +:+ "/" +:+ b
  end.

(** [os.path.exists(path)], for the path of a regular file spelt as it
    was written. *)
Definition os_path_exists (path : string) : M bool := λ w,
  (Return (bool_decide (is_Some (files w !! path))), w).

(** [os.makedirs(UPLOAD_DIR, exist_ok=True)]: directories are not part of
    the world, so nothing changes. *)
Definition os_makedirs (path : string) : M unit := mret ().

(** [with open(file_path, "wb") as buffer: shutil.copyfileobj(src, buffer)]:
    the path is created or truncated and receives the bytes, unless the
    system refuses to open it. *)
Definition open_wb_copyfileobj (file_path : string) (src : list Byte.byte)
    : M unit := λ w,
  match unwritable w !! file_path with
  | Some strerror => (Raise (OSError strerror), w)
  | None => (Return (), with_files w (<[file_path:=src]> (files w)))
  end.

(** [f"{n}"] for an [int]. *)
Definition format_int (n : Z) : string := NilZero.string_of_int (Z.to_int n).

(** ** The endpoints *)

(** [FileResponse(path, media_type=...)]. *)
Record FileResponse : Type := mkFileResponse {
  path : string;
  media_type : option string
}.

(** A value of a JSON object an endpoint returns as a [dict]. *)
Inductive json : Type :=
  | JNull
  | JString (s : string).

Definition json_of (v : option string) : json :=
  match v with
  | Some s => JString s
  | None => JNull
  end.

(** Serialisation through [response_model=MedicineRead]. *)
Definition response_model (med : Medicine.t) : M MedicineRead.t :=
  match MedicineRead.from_orm med with
  | Some r => mret r
  | None => raise ResponseValidationError
  end.

(** Serialisation through [response_model=List[MedicineRead]]. *)
Definition response_model_list (results : list Medicine.t)
    : M (list MedicineRead.t) :=
  match mapM MedicineRead.from_orm results with
  | Some rs => mret rs
  | None => raise ResponseValidationError
  end.

(** [GET /]: the function builds the response object; whether
    [index.html] can be served is decided when the framework sends it. *)
Definition serve_app : M FileResponse :=
  mret {| path := "index.html"; media_type := Some "text/html" |}.

(** [GET /prescriptions/{filename}]. *)
Definition get_prescription (filename : string) : M FileResponse :=
  let file_path := os_path_join UPLOAD_DIR filename in
  found ← os_path_exists file_path;
  if negb found then raise (HTTPException 404 "Prescription not found")
  else mret {| path := file_path; media_type := None |}.

(** [POST /medicines]. *)
Definition create_medicine (medicine : MedicineCreate) : M MedicineRead.t :=
  let db_medicine := Medicine.from_orm medicine in
  db_medicine ← session_add_commit db_medicine;
  db_medicine ← session_refresh db_medicine;
  response_model db_medicine.

(** The truth value of an [Optional[str]]: [None] and the empty string are
    false. *)
Definition truthy (v : option string) : bool :=
  match v with
  | None => false
  | Some s => negb (bool_decide (s = ""))
  end.

(** [GET /medicines?time_of_day=]. *)
Definition list_medicines (time_of_day : option string)
    : M (list MedicineRead.t) :=
  let statement := select_Medicine in
  let statement :=
    if truthy time_of_day then where_ statement (default "" time_of_day)
    else statement in
  results ← session_exec_all statement;
  response_model_list results.

(** [GET /medicines/{medicine_id}]. *)
Definition get_medicine (medicine_id : Z) : M MedicineRead.t :=
  med ← session_get medicine_id;
  match med with
  | None => raise (HTTPException 404 "Medicine not found")
  | Some med => response_model med
  end.

(** [PUT /medicines/{medicine_id}]. *)
Definition update_medicine (medicine_id : Z) (medicine_update : MedicineUpdate.t)
    : M MedicineRead.t :=
  med ← session_get medicine_id;
  match med with
  | None => raise (HTTPException 404 "Medicine not found")
  | Some med =>
      let update_data := dict_exclude_unset medicine_update in
      let med := foldl setattr med update_data in
      med ← session_add_commit med;
      med ← session_refresh med;
      response_model med
  end.

(** [DELETE /medicines/{medicine_id}]. *)
Definition delete_medicine (medicine_id : Z) : M (list (string * json)) :=
  med ← session_get medicine_id;
  match med with
  | None => raise (HTTPException 404 "Medicine not found")
  | Some med =>
      session_delete_commit med;;
      mret [("status", JString "deleted")]
  end.

(** [POST /upload-prescription/{medicine_id}]. *)
Definition upload_prescription (medicine_id : Z) (file : UploadFile.t)
    : M (list (string * json)) :=
  med ← session_get medicine_id;
  match med with
  | None => raise (HTTPException 404 "Medicine not found")
  | Some med =>
      os_makedirs UPLOAD_DIR;;
      let filename :=
        format_int medicine_id +:+ "_" +:+ UploadFile.filename file in
      let file_path := os_path_join UPLOAD_DIR filename in
      try_except
        (open_wb_copyfileobj file_path (UploadFile.file file);;
         let med :=
           setattr med (item_prescription_url (Some ("prescriptions/" +:+ filename))) in
         med ← session_add_commit med;
         med ← session_refresh med;
         mret [("status", JString "uploaded");
               ("file", json_of (Medicine.prescription_url med))])
        (λ e, raise (HTTPException 500 ("Upload failed: " +:+ str e)))
  end.

(** The requests the application routes, and what each endpoint answers. *)
Inductive request : Type :=
  | GET_root
  | GET_prescription (filename : string)
  | POST_medicines (medicine : MedicineCreate)
  | GET_medicines (time_of_day : option string)
  | GET_medicine (medicine_id : Z)
  | PUT_medicine (medicine_id : Z) (medicine_update : MedicineUpdate.t)
  | DELETE_medicine (medicine_id : Z)
  | POST_upload_prescription (medicine_id : Z) (file : UploadFile.t).

Inductive response : Type :=
  | File (r : FileResponse)
  | Record_ (r : MedicineRead.t)
  | Records (rs : list MedicineRead.t)
  | Dict (d : list (string * json)).

Definition route (req : request) : M response :=
  match req with
  | GET_root => File <$> serve_app
  | GET_prescription filename => File <$> get_prescription filename
  | POST_medicines medicine => Record_ <$> create_medicine medicine
  | GET_medicines time_of_day => Records <$> list_medicines time_of_day
  | GET_medicine medicine_id => Record_ <$> get_medicine medicine_id
  | PUT_medicine medicine_id medicine_update =>
      Record_ <$> update_medicine medicine_id medicine_update
  | DELETE_medicine medicine_id => Dict <$> delete_medicine medicine_id
  | POST_upload_prescription medicine_id file =>
      Dict <$> upload_prescription medicine_id file
  end.

(** ** Runs of requests and the vocabulary of the statements *)

(** The world after the requests have been served one after the other; a
    request that ends in an exception leaves the world as the exception
    found it. *)
Fixpoint run (reqs : list request) (w : World) : World :=
  match reqs with
  | [] => w
  | req :: reqs => run reqs (route req w).2
  end.

(** The keys the engine assigned to the records created during the run. *)
Fixpoint created (reqs : list request) (w : World) : list Z :=
  match reqs with
  | [] => []
  | req :: reqs =>
      match req, (route req w).1 with
      | POST_medicines _, Return (Record_ r) => [MedicineRead.id r]
      | _, _ => []
      end ++ created reqs (route req w).2
  end.

(** The requests that change a record in place. *)
Definition mutation (req : request) : bool :=
  match req with
  | PUT_medicine _ _ | POST_upload_prescription _ _ => true
  | _ => false
  end.

(** The record a request aims at by its path parameter, for the requests
    that write to a single record. *)
Definition target (req : request) : option Z :=
  match req with
  | PUT_medicine k _ | DELETE_medicine k | POST_upload_prescription k _ => Some k
  | _ => None
  end.

(** The payload supplies [null] for a column the schema declares NOT NULL. *)
Definition nulls_required (u : MedicineUpdate.t) : bool :=
  bool_decide (MedicineUpdate.name u = Some None)
  || bool_decide (MedicineUpdate.dose u = Some None)
  || bool_decide (MedicineUpdate.time_of_day u = Some None)
  || bool_decide (MedicineUpdate.active u = Some None).

(** The records of the table as the API shows them, in the order of a scan. *)
Definition listing (w : World) : list MedicineRead.t :=
  uncurry MedicineRead.of_row <$> rows (medicine w).

(** Does the record pass the [time_of_day] query parameter? *)
Definition wanted (time_of_day : option string) (r : MedicineRead.t) : bool :=
  negb (truthy time_of_day)
  || bool_decide (Some (MedicineRead.time_of_day r) = time_of_day).

Definition set_prescription_url (v : option string) (r : MedicineRead.t)
    : MedicineRead.t :=
  {| MedicineRead.id := MedicineRead.id r;
     MedicineRead.name := MedicineRead.name r;
     MedicineRead.dose := MedicineRead.dose r;
     MedicineRead.time_of_day := MedicineRead.time_of_day r;
     MedicineRead.notes := MedicineRead.notes r;
     MedicineRead.active := MedicineRead.active r;
     MedicineRead.prescription_url := v |}.

(** The row with its [prescription_url] column replaced. *)
Definition with_prescription_url (v : option string) (r : MedicineBase.t)
    : MedicineBase.t :=
  {| MedicineBase.name := MedicineBase.name r;
     MedicineBase.dose := MedicineBase.dose r;
     MedicineBase.time_of_day := MedicineBase.time_of_day r;
     MedicineBase.notes := MedicineBase.notes r;
     MedicineBase.active := MedicineBase.active r;
     MedicineBase.prescription_url := v |}.

(** The path [upload_prescription] stores in the record. *)
Definition prescription_path (medicine_id : Z) (file : UploadFile.t) : string :=
  "prescriptions/" +:+ format_int medicine_id +:+ "_" +:+ UploadFile.filename file.

(** The insertion log, following the words of the specification: a
    sequence of records in which a created record is appended at the end, an
    updated record is rewritten where it stands, and a deleted record is
    taken out; a request that fails leaves the sequence alone. *)
Definition log_step (req : request) (o : outcome response)
    (log : list MedicineRead.t) : list MedicineRead.t :=
  match req, o with
  | POST_medicines _, Return (Record_ r) => log ++ [r]
  | PUT_medicine k _, Return (Record_ r) =>
      (λ x, if decide (MedicineRead.id x = k) then r else x) <$> log
  | DELETE_medicine k, Return _ =>
      filter (λ x, MedicineRead.id x ≠ k) log
  | POST_upload_prescription k file, Return _ =>
      (λ x, if decide (MedicineRead.id x = k)
            then set_prescription_url (Some (prescription_path k file)) x
            else x) <$> log
  | _, _ => log
  end.

Fixpoint insertion_log (reqs : list request) (w : World)
    (log : list MedicineRead.t) : list MedicineRead.t :=
  match reqs with
  | [] => log
  | req :: reqs =>
      insertion_log reqs (route req w).2 (log_step req (route req w).1 log)
  end.

(** The ids the engine can hold as a key: the signed 64-bit integers. *)
Definition int64 (k : Z) : bool := (- 2 ^ 63 <=? k) && (k <? 2 ^ 63).

(** The requests to the medicine endpoints that carry an id the engine can
    hold and, for an update, a payload without [null] for a NOT NULL
    column. *)
Definition regular (req : request) : bool :=
  match req with
  | POST_medicines _ | GET_medicines _ => true
  | GET_medicine k | DELETE_medicine k | POST_upload_prescription k _ => int64 k
  | PUT_medicine k u => int64 k && negb (nulls_required u)
  | GET_root | GET_prescription _ => false
  end.

(** The requests served by the [GET] endpoints. *)
Definition safe (req : request) : bool :=
  match req with
  | GET_root | GET_prescription _ | GET_medicines _ | GET_medicine _ => true
  | _ => false
  end.

(** The payload of a request body that sets no field. *)
Definition nothing_set : MedicineUpdate.t :=
  {| MedicineUpdate.name := None;
     MedicineUpdate.dose := None;
     MedicineUpdate.time_of_day := None;
     MedicineUpdate.notes := None;
     MedicineUpdate.active := None;
     MedicineUpdate.prescription_url := None |}.

(** ** Sample data *)

Definition empty_world : World :=
  {| medicine := ∅; files := ∅; unwritable := ∅ |}.

Definition aspirin : MedicineCreate :=
  {| MedicineBase.name := "Aspirin";
     MedicineBase.dose := "100 mg";
     MedicineBase.time_of_day := "morning";
     MedicineBase.notes := Some "Tablet";
     MedicineBase.active := true;
     MedicineBase.prescription_url := None |}.

Definition syrup : MedicineCreate :=
  {| MedicineBase.name := "Cough syrup";
     MedicineBase.dose := "10 ml";
     MedicineBase.time_of_day := "evening";
     MedicineBase.notes := Some "Syrup";
     MedicineBase.active := true;
     MedicineBase.prescription_url := None |}.

(** The world after both medicines have been posted: Aspirin under key 1,
    the syrup under key 2. *)
Definition pharmacy : World :=
  run [POST_medicines aspirin; POST_medicines syrup] empty_world.

(** A payload whose only field is [name], set to [null]. *)
Definition name_null : MedicineUpdate.t :=
  {| MedicineUpdate.name := Some None;
     MedicineUpdate.dose := None;
     MedicineUpdate.time_of_day := None;
     MedicineUpdate.notes := None;
     MedicineUpdate.active := None;
     MedicineUpdate.prescription_url := None |}.

(** A payload that changes the dose and clears the notes. *)
Definition new_dose : MedicineUpdate.t :=
  {| MedicineUpdate.name := None;
     MedicineUpdate.dose := Some (Some "200 mg");
     MedicineUpdate.time_of_day := None;
     MedicineUpdate.notes := Some None;
     MedicineUpdate.active := None;
     MedicineUpdate.prescription_url := None |}.

Definition scan_png : UploadFile.t :=
  {| UploadFile.filename := "scan.png";
     UploadFile.file := [Byte.x89; Byte.x50; Byte.x4e; Byte.x47] |}.

(** An upload whose file name names a subdirectory. *)
Definition nested_png : UploadFile.t :=
  {| UploadFile.filename := "rx/scan.png";
     UploadFile.file := [Byte.x89; Byte.x50; Byte.x4e; Byte.x47] |}.

(** The pharmacy on a disk whose upload directory has no subdirectory
    [1_rx]: the file of [nested_png] for key 1 cannot be opened. *)
Definition flat_disk_pharmacy : World :=
  {| medicine := medicine pharmacy;
     files := ∅;
     unwritable :=
       {[ "prescriptions/1_rx/scan.png" :=
            "[Errno 2] No such file or directory: 'prescriptions/1_rx/scan.png'" ]} |}.

(** ** Facts about the key order of the table *)

Section rowids.
Implicit Types (t : gmap Z MedicineBase.t) (k : Z) (r : MedicineBase.t).

Lemma foldr_max_le (k0 : Z) (ks : list Z) (j : Z) :
  j = k0 ∨ j ∈ ks → j ≤ foldr Z.max k0 ks.
Proof.
  induction ks as [|a ks IH]; simpl.
  - intros [->|Hin]; [lia | by apply elem_of_nil in Hin].
  - intros [->|Hin].
    + specialize (IH (or_introl eq_refl)). lia.
    + apply elem_of_cons in Hin as [->|Hin]; [lia|].
      specialize (IH (or_intror Hin)). lia.
Qed.

(** Every key in use lies below the next key. *)
Lemma next_rowid_gt t k : is_Some (t !! k) → k < next_rowid t.
Proof.
  intros Hk. apply elem_of_dom, elem_of_elements in Hk.
  unfold next_rowid. destruct (elements (dom t)) as [|k0 ks].
  - by apply elem_of_nil in Hk.
  - apply elem_of_cons in Hk.
    pose proof (foldr_max_le k0 ks k Hk). lia.
Qed.


Lemma elem_of_rowids t k : k ∈ rowids t ↔ is_Some (t !! k).
Proof.
  unfold rowids. rewrite merge_sort_Permutation, elem_of_elements.
  apply elem_of_dom.
Qed.

Lemma NoDup_rowids t : NoDup (rowids t).
Proof.
  unfold rowids. rewrite merge_sort_Permutation. apply NoDup_elements.
Qed.

Lemma Sorted_rowids t : Sorted Z.le (rowids t).
Proof. apply (Sorted_merge_sort Z.le). Qed.

(** A duplicate-free list of keys in ascending order is determined by its
    members. *)
Lemma sorted_keys_unique (l1 l2 : list Z) :
  Sorted Z.le l1 → Sorted Z.le l2 → NoDup l1 → NoDup l2 →
  (∀ x, x ∈ l1 ↔ x ∈ l2) → l1 = l2.
Proof.
  intros S1 S2 N1 N2 Hmem.
  apply (Sorted_unique Z.le); [done..|].
  by apply NoDup_Permutation.
Qed.

Lemma Sorted_filter_le (P : Z → Prop) `{∀ x, Decision (P x)} (l : list Z) :
  Sorted Z.le l → Sorted Z.le (filter P l).
Proof.
  intros HS. apply Sorted_StronglySorted in HS; [|apply _].
  apply StronglySorted_Sorted.
  induction HS as [|x l HS IH Hx]; [constructor|].
  rewrite filter_cons. destruct (decide (P x)); [|done].
  constructor; [done|].
  apply Forall_forall. intros y Hy%list_elem_of_filter.
  rewrite Forall_forall in Hx. apply Hx, Hy.
Qed.

(** A row inserted under a key above all others is scanned last. *)
Lemma rowids_insert_fresh t k r :
  (∀ j, is_Some (t !! j) → j < k) →
  rowids (<[k:=r]> t) = rowids t ++ [k].
Proof.
  intros Hgt.
  assert (k ∉ rowids t) as Hnotin.
  { rewrite elem_of_rowids. intros Hk. specialize (Hgt k Hk). lia. }
  apply sorted_keys_unique.
  - apply Sorted_rowids.
  - apply StronglySorted_Sorted, StronglySorted_app_2.
    + intros j k' Hj ->%list_elem_of_singleton.
      apply elem_of_rowids, Hgt in Hj. lia.
    + apply Sorted_StronglySorted; [apply _|apply Sorted_rowids].
    + repeat constructor.
  - apply NoDup_rowids.
  - apply NoDup_app. split_and!; [apply NoDup_rowids| |apply NoDup_singleton].
    intros j Hj ->%list_elem_of_singleton. done.
  - intros j. rewrite elem_of_app, list_elem_of_singleton, !elem_of_rowids.
    rewrite lookup_insert_is_Some.
    destruct (decide (k = j)) as [->|]; [tauto|].
    split; [intros [?|[_ ?]]|intros [?|?]]; tauto || congruence.
Qed.

(** Overwriting a row keeps the scan order. *)
Lemma rowids_insert_existing t k r :
  is_Some (t !! k) → rowids (<[k:=r]> t) = rowids t.
Proof.
  intros Hk. unfold rowids. f_equal. f_equal.
  apply dom_insert_lookup_L, Hk.
Qed.

(** Deleting a row removes its key and keeps the others in order. *)
Lemma rowids_delete t k :
  rowids (delete k t) = filter (λ j, j ≠ k) (rowids t).
Proof.
  apply sorted_keys_unique.
  - apply Sorted_rowids.
  - apply Sorted_filter_le, Sorted_rowids.
  - apply NoDup_rowids.
  - apply NoDup_filter, NoDup_rowids.
  - intros j. rewrite list_elem_of_filter, !elem_of_rowids.
    rewrite lookup_delete_is_Some. split; intros [? ?]; split; congruence.
Qed.
End rowids.

(** ** Facts about the rows a scan visits *)

Section rows.
Implicit Types (t : gmap Z MedicineBase.t) (k : Z) (r : MedicineBase.t).

Lemma elem_of_rows t k r : (k, r) ∈ rows t ↔ t !! k = Some r.
Proof.
  unfold rows. rewrite list_elem_of_omap. split.
  - intros (j & _ & Hj). destruct (t !! j) eqn:E; by simplify_eq/=.
  - intros Hk. exists k. split; [|by rewrite Hk].
    apply elem_of_rowids. by rewrite Hk.
Qed.

Lemma rows_fst t : (rows t).*1 = rowids t.
Proof.
  unfold rows.
  assert (∀ l, (∀ j, j ∈ l → is_Some (t !! j)) →
               (omap (λ j, (j,.) <$> t !! j) l).*1 = l) as Hgen.
  { induction l as [|j l IH]; intros Hl; [done|]. simpl.
    destruct (Hl j) as [r Hr]; [left|]. rewrite Hr. simpl.
    f_equal. apply IH. intros i Hi. apply Hl. by right. }
  apply Hgen. intros j. apply elem_of_rowids.
Qed.

Lemma rows_insert_fresh t k r :
  (∀ j, is_Some (t !! j) → j < k) →
  rows (<[k:=r]> t) = rows t ++ [(k, r)].
Proof.
  intros Hgt. unfold rows. rewrite rowids_insert_fresh by done.
  rewrite omap_app. simpl. rewrite lookup_insert_eq. simpl. f_equal.
  apply list_omap_ext, Forall2_same_length_lookup_2; [done|].
  intros i j j' Hj Hj'. assert (j' = j) as -> by congruence.
  rewrite lookup_insert_ne; [done|].
  intros ->. apply list_elem_of_lookup_2, elem_of_rowids, Hgt in Hj. lia.
Qed.

Lemma omap_cons_unfold {A B} (f : A → option B) (x : A) (l : list A) :
  omap f (x :: l) =
    match f x with Some y => y :: omap f l | None => omap f l end.
Proof. reflexivity. Qed.

Lemma rows_insert_existing t k r :
  is_Some (t !! k) →
  rows (<[k:=r]> t) =
    (λ kr, if decide (kr.1 = k) then (k, r) else kr) <$> rows t.
Proof.
  intros [r0 Hk]. unfold rows. rewrite rowids_insert_existing by eauto.
  induction (rowids t) as [|j l IH]; [done|].
  rewrite !omap_cons_unfold, IH.
  destruct (decide (j = k)) as [->|Hne].
  - rewrite lookup_insert_eq, Hk. simpl. by rewrite decide_True.
  - rewrite lookup_insert_ne by done.
    destruct (t !! j) as [rj|]; simpl; [|done].
    by rewrite decide_False.
Qed.

Lemma rows_delete t k :
  rows (delete k t) = filter (λ kr, kr.1 ≠ k) (rows t).
Proof.
  unfold rows. rewrite rowids_delete.
  induction (rowids t) as [|j l IH]; [done|].
  rewrite filter_cons, omap_cons_unfold.
  destruct (decide (j ≠ k)) as [Hne|Heq].
  - rewrite omap_cons_unfold, IH, lookup_delete_ne by done.
    destruct (t !! j) as [rj|]; simpl; [|done].
    by rewrite filter_cons, decide_True.
  - apply dec_stable in Heq as ->. rewrite IH.
    destruct (t !! k) as [rk|]; simpl; [|done].
    rewrite filter_cons, decide_False; [done|]. simpl. tauto.
Qed.
End rows.

(** ** What each endpoint computes *)

Section endpoints.
Implicit Types (w : World) (k : Z) (r : MedicineBase.t).

Lemma to_row_of_row k r : Medicine.to_row (Medicine.of_row k r) = Some r.
Proof. by destruct r. Qed.

Lemma from_orm_of_row k r :
  MedicineRead.from_orm (Medicine.of_row k r) = Some (MedicineRead.of_row k r).
Proof. by destruct r. Qed.

Lemma to_row_from_orm (m : MedicineCreate) :
  Medicine.to_row (Medicine.from_orm m) = Some m.
Proof. by destruct m. Qed.

Lemma get_medicine_eq k w :
  get_medicine k w =
    match medicine w !! k with
    | Some r => (Return (MedicineRead.of_row k r), w)
    | None => (Raise (HTTPException 404 "Medicine not found"), w)
    end.
Proof.
  unfold get_medicine, session_get, mbind, M_bind.
  destruct (medicine w !! k) as [r|]; simpl; [|done].
  unfold response_model. by rewrite from_orm_of_row.
Qed.

Lemma create_medicine_eq (m : MedicineCreate) w :
  create_medicine m w =
    (Return (MedicineRead.of_row (next_rowid (medicine w)) m),
     with_medicine w (<[next_rowid (medicine w):=m]> (medicine w))).
Proof.
  unfold create_medicine, session_add_commit, session_refresh, mbind, M_bind.
  rewrite to_row_from_orm. simpl. rewrite lookup_insert_eq. simpl.
  unfold response_model. by rewrite from_orm_of_row.
Qed.

Lemma setattr_id (med : Medicine.t) (kv : item) :
  Medicine.id (setattr med kv) = Medicine.id med.
Proof. by destruct med, kv. Qed.

Lemma foldl_setattr_id (l : list item) (med : Medicine.t) :
  Medicine.id (foldl setattr med l) = Medicine.id med.
Proof.
  revert med. induction l as [|kv l IH]; intros med; [done|].
  simpl. by rewrite IH, setattr_id.
Qed.

Lemma update_medicine_eq k (u : MedicineUpdate.t) w :
  update_medicine k u w =
    match medicine w !! k with
    | None => (Raise (HTTPException 404 "Medicine not found"), w)
    | Some r =>
        match Medicine.to_row
                (foldl setattr (Medicine.of_row k r) (dict_exclude_unset u)) with
        | Some r' =>
            (Return (MedicineRead.of_row k r'),
             with_medicine w (<[k:=r']> (medicine w)))
        | None => (Raise IntegrityError, w)
        end
    end.
Proof.
  unfold update_medicine, session_get, mbind, M_bind.
  destruct (medicine w !! k) as [r|]; simpl; [|done].
  unfold session_add_commit.
  destruct (Medicine.to_row _) as [r'|]; [|done].
  rewrite foldl_setattr_id. simpl.
  unfold session_refresh. simpl. rewrite lookup_insert_eq. simpl.
  unfold response_model. by rewrite from_orm_of_row.
Qed.

(** The row the loop of [setattr] calls leaves to be written: each supplied
    field holds the supplied value and every other field the old one; there
    is no such row when a NOT NULL column was given [null]. *)
Lemma to_row_setattr k r (u : MedicineUpdate.t) :
  Medicine.to_row (foldl setattr (Medicine.of_row k r) (dict_exclude_unset u)) =
    if nulls_required u then None
    else Some
      {| MedicineBase.name :=
           default (MedicineBase.name r) (default None (MedicineUpdate.name u));
         MedicineBase.dose :=
           default (MedicineBase.dose r) (default None (MedicineUpdate.dose u));
         MedicineBase.time_of_day :=
           default (MedicineBase.time_of_day r)
                   (default None (MedicineUpdate.time_of_day u));
         MedicineBase.notes :=
           default (MedicineBase.notes r) (MedicineUpdate.notes u);
         MedicineBase.active :=
           default (MedicineBase.active r)
                   (default None (MedicineUpdate.active u));
         MedicineBase.prescription_url :=
           default (MedicineBase.prescription_url r)
                   (MedicineUpdate.prescription_url u) |}.
Proof.
  destruct r as [n d t o a p].
  destruct u as [[[un|]|] [[ud|]|] [[ut|]|] [uo|] [[ua|]|] [up|]]; reflexivity.
Qed.

Lemma delete_medicine_eq k w :
  delete_medicine k w =
    match medicine w !! k with
    | None => (Raise (HTTPException 404 "Medicine not found"), w)
    | Some _ =>
        (Return [("status", JString "deleted")],
         with_medicine w (delete k (medicine w)))
    end.
Proof.
  unfold delete_medicine, session_get, mbind, M_bind.
  by destruct (medicine w !! k) as [r|].
Qed.

Lemma format_int_head (n : Z) :
  ∃ c s, format_int n = String c s ∧ c ≠ "/"%char.
Proof.
  unfold format_int. destruct n as [|p|p]; simpl.
  - by eexists _, _.
  - unfold NilZero.string_of_uint.
    destruct (Pos.to_uint p); simpl; by eexists _, _.
  - by eexists _, _.
Qed.

Lemma os_path_join_UPLOAD_DIR (c : ascii) (s : string) :
  c ≠ "/"%char → os_path_join UPLOAD_DIR (String c s) = "prescriptions/" +:+ String c s.
Proof.
  intros Hc. unfold os_path_join.
  destruct c as [[] [] [] [] [] [] [] []]; try reflexivity. done.
Qed.

(** The file of an upload lands under the name the record will hold. *)
Lemma upload_file_path k (file : UploadFile.t) :
  os_path_join UPLOAD_DIR (format_int k +:+ "_" +:+ UploadFile.filename file) =
    prescription_path k file.
Proof.
  unfold prescription_path.
  destruct (format_int_head k) as (c & s & -> & Hc).
  change (String c s +:+ "_" +:+ UploadFile.filename file)
    with (String c (s +:+ "_" +:+ UploadFile.filename file)).
  by rewrite os_path_join_UPLOAD_DIR.
Qed.

Lemma upload_prescription_eq k (file : UploadFile.t) w :
  upload_prescription k file w =
    match medicine w !! k with
    | None => (Raise (HTTPException 404 "Medicine not found"), w)
    | Some r =>
        match unwritable w !! prescription_path k file with
        | Some strerror =>
            (Raise (HTTPException 500 ("Upload failed: " +:+ strerror)), w)
        | None =>
            (Return [("status", JString "uploaded");
                     ("file", JString (prescription_path k file))],
             {| medicine :=
                  <[k:=with_prescription_url
                         (Some (prescription_path k file)) r]> (medicine w);
                files :=
                  <[prescription_path k file:=UploadFile.file file]> (files w);
                unwritable := unwritable w |})
        end
    end.
Proof.
  unfold upload_prescription, session_get, mbind, M_bind.
  destruct (medicine w !! k) as [r|]; simpl; [|done].
  rewrite upload_file_path.
  unfold try_except, open_wb_copyfileobj.
  destruct (unwritable w !! _) as [msg|]; simpl; [done|].
  unfold session_add_commit, session_refresh. destruct r as [n d t o a p].
  simpl. rewrite lookup_insert_eq. reflexivity.
Qed.

Lemma mapM_from_orm_of_row (l : list (Z * MedicineBase.t)) :
  mapM MedicineRead.from_orm (uncurry Medicine.of_row <$> l) =
    Some (uncurry MedicineRead.of_row <$> l).
Proof.
  apply mapM_Some, Forall2_fmap, Forall_Forall2_diag, Forall_forall.
  intros [j r] _. apply from_orm_of_row.
Qed.

Lemma list_medicines_eq (time_of_day : option string) w :
  list_medicines time_of_day w =
    (Return (filter (λ x, wanted time_of_day x = true) (listing w)), w).
Proof.
  unfold list_medicines, session_exec_all, mbind, M_bind, response_model_list.
  rewrite mapM_from_orm_of_row. unfold mret, M_ret, listing, scan.
  do 2 f_equal.
  induction (rows (medicine w)) as [|[j r] l IH]; [done|].
  rewrite fmap_cons, !filter_cons, <-IH. clear IH.
  change ((j, r).2) with r.
  change (uncurry MedicineRead.of_row (j, r)) with (MedicineRead.of_row j r).
  assert (satisfies (if truthy time_of_day
                     then where_ select_Medicine (default "" time_of_day)
                     else select_Medicine) r
          = wanted time_of_day (MedicineRead.of_row j r)) as ->.
  { unfold wanted. destruct (truthy time_of_day) eqn:Ht; [|done].
    destruct time_of_day as [v|]; [|done]. unfold satisfies. simpl.
    apply bool_decide_ext. split; [by intros ->|congruence]. }
  by destruct (decide _).
Qed.
Lemma fmap_M_eq {A B} (f : A → B) (c : M A) w :
  (f <$> c) w =
    match c w with
    | (Return a, w') => (Return (f a), w')
    | (Raise e, w') => (Raise e, w')
    end.
Proof. reflexivity. Qed.

Lemma fmap_M_snd {A B} (f : A → B) (c : M A) w : ((f <$> c) w).2 = (c w).2.
Proof. rewrite fmap_M_eq. by destruct (c w) as [[a|e] w']. Qed.

Lemma get_prescription_eq (filename : string) w :
  get_prescription filename w =
    match files w !! os_path_join UPLOAD_DIR filename with
    | Some _ =>
        (Return {| path := os_path_join UPLOAD_DIR filename;
                   media_type := None |}, w)
    | None => (Raise (HTTPException 404 "Prescription not found"), w)
    end.
Proof.
  unfold get_prescription, os_path_exists, mbind, M_bind.
  by destruct (files w !! _).
Qed.

End endpoints.

(** Rewrites a routed request into what its endpoint computes. *)
Ltac route_eq :=
  unfold route;
  rewrite ?fmap_M_eq, ?get_prescription_eq, ?create_medicine_eq,
    ?list_medicines_eq, ?get_medicine_eq, ?update_medicine_eq,
    ?delete_medicine_eq, ?upload_prescription_eq.

(** ** How a request changes the table and the listing *)

Section route.
Implicit Types (w : World) (k : Z) (req : request).

(** Only a creation brings a key into use. *)
Lemma route_absent req w k :
  medicine w !! k = None →
  k ∉ created [req] w →
  medicine (route req w).2 !! k = None.
Proof.
  intros Hk Hnew. simpl in Hnew. rewrite app_nil_r in Hnew. revert Hnew.
  destruct req as [|fn|m|f|j|j u|j|j file]; route_eq; simpl.
  - done.
  - by destruct (files w !! _).
  - intros Hnew. rewrite lookup_insert_ne; [done|].
    intros Heq. apply Hnew. rewrite Heq. by left.
  - done.
  - by destruct (medicine w !! j).
  - intros _. destruct (medicine w !! j) as [r|] eqn:Hj; [|done].
    destruct (Medicine.to_row _) as [r'|]; simpl; [|done].
    rewrite lookup_insert_ne; [done|congruence].
  - intros _. destruct (medicine w !! j) as [r|] eqn:Hj; [|done]. simpl.
    rewrite lookup_delete_ne; [done|congruence].
  - intros _. destruct (medicine w !! j) as [r|] eqn:Hj; [|done].
    destruct (unwritable w !! _); simpl; [done|].
    rewrite lookup_insert_ne; [done|congruence].
Qed.

(** A request that changes records in place keeps the set of keys. *)
Lemma route_mutation_dom req w :
  mutation req = true → dom (medicine (route req w).2) = dom (medicine w).
Proof.
  destruct req as [|fn|m|f|j|j u|j|j file]; try done; intros _; route_eq.
  - destruct (medicine w !! j) as [r|] eqn:Hj; [|done].
    destruct (Medicine.to_row _) as [r'|]; simpl; [|done].
    apply dom_insert_lookup_L. by rewrite Hj.
  - destruct (medicine w !! j) as [r|] eqn:Hj; [|done].
    destruct (unwritable w !! _); simpl; [done|].
    apply dom_insert_lookup_L. by rewrite Hj.
Qed.

(** A request aimed at one key leaves the rows under all other keys. *)
Lemma route_frame req w k k' :
  target req = Some k → k' ≠ k →
  medicine (route req w).2 !! k' = medicine w !! k'.
Proof.
  intros Hreq Hne.
  destruct req as [|fn|m|f|j|j u|j|j file]; try done;
    injection Hreq as ->; route_eq;
    (destruct (medicine w !! k) as [r|]; [|done]).
  - destruct (Medicine.to_row _) as [r'|]; simpl; [|done].
    by rewrite lookup_insert_ne.
  - simpl. by rewrite lookup_delete_ne.
  - destruct (unwritable w !! _); simpl; [done|].
    by rewrite lookup_insert_ne.
Qed.

Lemma filter_fmap_comm {A B} (f : A → B) (P : B → Prop)
    `{∀ y, Decision (P y)} (l : list A) :
  filter P (f <$> l) = f <$> filter (λ a, P (f a)) l.
Proof.
  induction l as [|a l IH]; [done|].
  rewrite fmap_cons, !filter_cons, IH. by destruct (decide (P (f a))).
Qed.

Lemma listing_insert_fresh w (r : MedicineBase.t) :
  listing (with_medicine w (<[next_rowid (medicine w):=r]> (medicine w))) =
    listing w ++ [MedicineRead.of_row (next_rowid (medicine w)) r].
Proof.
  unfold listing. simpl.
  rewrite rows_insert_fresh by apply next_rowid_gt.
  by rewrite fmap_app.
Qed.

Lemma listing_insert_existing (t : gmap Z MedicineBase.t) k
    (r0 r : MedicineBase.t) (g : MedicineRead.t → MedicineRead.t) :
  t !! k = Some r0 →
  g (MedicineRead.of_row k r0) = MedicineRead.of_row k r →
  uncurry MedicineRead.of_row <$> rows (<[k:=r]> t) =
    (λ x, if decide (MedicineRead.id x = k) then g x else x)
      <$> (uncurry MedicineRead.of_row <$> rows t).
Proof.
  intros Hk Hg. rewrite rows_insert_existing by (by rewrite Hk).
  rewrite <-!list_fmap_compose.
  apply list_fmap_ext. intros i [j rj] Hi. simpl.
  destruct (decide (j = k)) as [->|]; [|done]. simpl.
  apply list_elem_of_lookup_2, elem_of_rows in Hi.
  assert (rj = r0) as -> by congruence. by rewrite Hg.
Qed.

Lemma listing_delete w k :
  listing (with_medicine w (delete k (medicine w))) =
    filter (λ x, MedicineRead.id x ≠ k) (listing w).
Proof.
  unfold listing. simpl. rewrite rows_delete, filter_fmap_comm.
  f_equal. apply list_filter_iff. by intros [j rj].
Qed.

(** The listing follows the insertion log request by request. *)
Lemma listing_route req w :
  listing (route req w).2 = log_step req (route req w).1 (listing w).
Proof.
  destruct req as [|fn|m|f|j|j u|j|j file]; route_eq; simpl.
  - done.
  - by destruct (files w !! _).
  - apply listing_insert_fresh.
  - done.
  - by destruct (medicine w !! j).
  - destruct (medicine w !! j) as [r|] eqn:Hj; [|done].
    destruct (Medicine.to_row _) as [r'|]; simpl; [|done].
    unfold listing. simpl.
    by apply (listing_insert_existing _ _ r r' (λ _, MedicineRead.of_row j r')).
  - destruct (medicine w !! j) as [r|] eqn:Hj; [|done]. simpl.
    apply listing_delete.
  - destruct (medicine w !! j) as [r|] eqn:Hj; [|done].
    destruct (unwritable w !! _); simpl; [done|].
    unfold listing. simpl.
    by apply (listing_insert_existing _ _ r).
Qed.

Lemma elem_of_listing w (x : MedicineRead.t) :
  x ∈ listing w ↔
    ∃ r, medicine w !! MedicineRead.id x = Some r
         ∧ x = MedicineRead.of_row (MedicineRead.id x) r.
Proof.
  unfold listing. rewrite list_elem_of_fmap. split.
  - intros ([j r] & -> & Hin). apply elem_of_rows in Hin. by exists r.
  - intros (r & Hr & Hx). exists (MedicineRead.id x, r).
    split; [done|]. by apply elem_of_rows.
Qed.
End route.

(** ** Creating and reading *)

(** C1: for every valid [MedicineCreate] input and every world,
    [create_medicine] returns a record and [get_medicine] on the id of that
    record returns the same record: its name, dose, time_of_day, notes,
    active and prescription_url are those of the input, next to the id the
    engine assigned. *)
Theorem create_medicine_then_get_medicine (m : MedicineCreate) (w : World) :
  ∃ (r : MedicineRead.t) (w' : World),
    create_medicine m w = (Return r, w')
    ∧ get_medicine (MedicineRead.id r) w' = (Return r, w')
    ∧ MedicineRead.name r = MedicineBase.name m
    ∧ MedicineRead.dose r = MedicineBase.dose m
    ∧ MedicineRead.time_of_day r = MedicineBase.time_of_day m
    ∧ MedicineRead.notes r = MedicineBase.notes m
    ∧ MedicineRead.active r = MedicineBase.active m
    ∧ MedicineRead.prescription_url r = MedicineBase.prescription_url m.
Proof.
  eexists _, _. split; [apply create_medicine_eq|].
  split; [|done].
  rewrite get_medicine_eq. simpl. by rewrite lookup_insert_eq.
Qed.

(** ** Listing *)

(** C2, as amended: for every world and every non-empty [time_of_day]
    filter, every record [list_medicines] returns has that [time_of_day]. *)
Theorem list_medicines_only_matching (time_of_day : string) (w : World) :
  time_of_day ≠ "" →
  ∃ rs : list MedicineRead.t,
    list_medicines (Some time_of_day) w = (Return rs, w)
    ∧ Forall (λ r, MedicineRead.time_of_day r = time_of_day) rs.
Proof.
  intros Hne. eexists. split; [apply list_medicines_eq|].
  apply Forall_forall. intros r [Hr _]%list_elem_of_filter.
  unfold wanted, truthy in Hr. rewrite bool_decide_eq_false_2 in Hr by done.
  simpl in Hr. apply bool_decide_eq_true_1 in Hr. congruence.
Qed.

Lemma list_medicines_only_matching_witness :
  "evening" ≠ ""
  ∧ ∃ rs : list MedicineRead.t,
      list_medicines (Some "evening") pharmacy = (Return rs, pharmacy)
      ∧ Forall (λ r, MedicineRead.time_of_day r = "evening") rs.
Proof.
  split; [done|]. apply (list_medicines_only_matching "evening" pharmacy). done.
Defined.

(** C2 as stated fails for the empty filter value: it is supplied, and the
    Aspirin record that comes back is a morning one. *)
Lemma list_medicines_empty_filter_returns_morning :
  list_medicines (Some "") pharmacy =
    (Return [MedicineRead.of_row 1 aspirin; MedicineRead.of_row 2 syrup], pharmacy)
  ∧ MedicineRead.time_of_day (MedicineRead.of_row 1 aspirin) = "morning"
  ∧ ¬ Forall (λ r, MedicineRead.time_of_day r = "")
        [MedicineRead.of_row 1 aspirin; MedicineRead.of_row 2 syrup].
Proof.
  split; [by vm_compute|]. split; [done|].
  intros H. by apply Forall_cons_1 in H as [? _].
Qed.

(** C9: an empty [time_of_day] applies no filter: the answer is the one for
    no filter at all, and it holds every record of the table. *)
Theorem list_medicines_empty_string (w : World) :
  list_medicines (Some "") w = list_medicines None w
  ∧ ∃ rs : list MedicineRead.t,
      list_medicines (Some "") w = (Return rs, w)
      ∧ ∀ k r, medicine w !! k = Some r → MedicineRead.of_row k r ∈ rs.
Proof.
  split; [done|]. eexists. split; [apply list_medicines_eq|].
  intros k r Hk. apply list_elem_of_filter. split; [done|].
  apply elem_of_listing. by exists r.
Qed.

(** ** Updating *)

(** C3, as amended: for every record in the table and every partial update
    payload, a field the payload does not supply keeps its value, whatever
    the request answers; and when the payload supplies no [null] for [name],
    [dose], [time_of_day] or [active], [update_medicine] returns and stores
    the record in which each supplied field holds the supplied value and
    every other field the value it had. *)
Theorem update_medicine_partial (k : Z) (u : MedicineUpdate.t) (w : World)
    (r : MedicineBase.t) :
  medicine w !! k = Some r →
  (∃ r' : MedicineBase.t,
     medicine (update_medicine k u w).2 !! k = Some r'
     ∧ (MedicineUpdate.name u = None →
        MedicineBase.name r' = MedicineBase.name r)
     ∧ (MedicineUpdate.dose u = None →
        MedicineBase.dose r' = MedicineBase.dose r)
     ∧ (MedicineUpdate.time_of_day u = None →
        MedicineBase.time_of_day r' = MedicineBase.time_of_day r)
     ∧ (MedicineUpdate.notes u = None →
        MedicineBase.notes r' = MedicineBase.notes r)
     ∧ (MedicineUpdate.active u = None →
        MedicineBase.active r' = MedicineBase.active r)
     ∧ (MedicineUpdate.prescription_url u = None →
        MedicineBase.prescription_url r' = MedicineBase.prescription_url r))
  ∧ (nulls_required u = false →
     ∃ r' : MedicineBase.t,
       update_medicine k u w =
         (Return (MedicineRead.of_row k r'),
          with_medicine w (<[k:=r']> (medicine w)))
       ∧ Some (MedicineBase.name r') =
           default (Some (MedicineBase.name r)) (MedicineUpdate.name u)
       ∧ Some (MedicineBase.dose r') =
           default (Some (MedicineBase.dose r)) (MedicineUpdate.dose u)
       ∧ Some (MedicineBase.time_of_day r') =
           default (Some (MedicineBase.time_of_day r))
                   (MedicineUpdate.time_of_day u)
       ∧ MedicineBase.notes r' =
           default (MedicineBase.notes r) (MedicineUpdate.notes u)
       ∧ Some (MedicineBase.active r') =
           default (Some (MedicineBase.active r)) (MedicineUpdate.active u)
       ∧ MedicineBase.prescription_url r' =
           default (MedicineBase.prescription_url r)
                   (MedicineUpdate.prescription_url u)).
Proof.
  intros Hk. rewrite update_medicine_eq, Hk, to_row_setattr. split.
  - destruct (nulls_required u); simpl.
    + exists r. by rewrite Hk.
    + eexists. rewrite lookup_insert_eq. split; [done|]. simpl.
      repeat split; by intros ->.
  - intros Hnull. rewrite Hnull. eexists. split; [done|]. simpl.
    destruct u as [[[un|]|] [[ud|]|] [[ut|]|] [uo|] [[ua|]|] [up|]];
      (discriminate Hnull || done).
Qed.

Lemma update_medicine_partial_witness :
  medicine pharmacy !! 1 = Some aspirin
  ∧ nulls_required new_dose = false
  ∧ ∃ r' : MedicineBase.t,
      update_medicine 1 new_dose pharmacy =
        (Return (MedicineRead.of_row 1 r'),
         with_medicine pharmacy (<[1:=r']> (medicine pharmacy)))
      ∧ Some (MedicineBase.name r') = Some "Aspirin"
      ∧ Some (MedicineBase.dose r') = Some "200 mg"
      ∧ Some (MedicineBase.time_of_day r') = Some "morning"
      ∧ MedicineBase.notes r' = None
      ∧ Some (MedicineBase.active r') = Some true
      ∧ MedicineBase.prescription_url r' = None.
Proof.
  split; [by vm_compute|]. split; [done|].
  refine (proj2 (update_medicine_partial 1 new_dose pharmacy aspirin _) _);
    by vm_compute.
Defined.

(** C3 as stated fails for a payload that supplies [name] as [null]: the
    request ends in an integrity error and the record keeps its name. *)
Lemma update_medicine_null_name_rejected :
  medicine pharmacy !! 1 = Some aspirin
  ∧ MedicineUpdate.name name_null = Some None
  ∧ update_medicine 1 name_null pharmacy = (Raise IntegrityError, pharmacy)
  ∧ MedicineBase.name <$> medicine (update_medicine 1 name_null pharmacy).2 !! 1
    = Some "Aspirin".
Proof. repeat split; by vm_compute. Qed.

(** ** Uploading a prescription *)

(** C5, as amended: for an id with a record, when the system lets the file
    be written, [upload_prescription] writes the bytes under
    ["prescriptions/{id}_{filename}"], stores that path as the record's
    [prescription_url], leaves the record's other fields alone and answers
    with the status [uploaded] and the path; when the write is refused it
    ends in HTTP 500 and the world is unchanged; for an id within the signed
    64-bit range with no record it ends in HTTP 404 and the world is
    unchanged. *)
Theorem upload_prescription_outcomes (k : Z) (file : UploadFile.t) (w : World) :
  let url := "prescriptions/" +:+ format_int k +:+ "_" +:+ UploadFile.filename file in
  (∀ r, medicine w !! k = Some r → unwritable w !! url = None →
     ∃ w' : World,
       upload_prescription k file w =
         (Return [("status", JString "uploaded"); ("file", JString url)], w')
       ∧ get_medicine k w' =
           (Return (set_prescription_url (Some url) (MedicineRead.of_row k r)), w')
       ∧ files w' !! url = Some (UploadFile.file file))
  ∧ (∀ r strerror,
       medicine w !! k = Some r → unwritable w !! url = Some strerror →
       upload_prescription k file w =
         (Raise (HTTPException 500 ("Upload failed: " +:+ strerror)), w))
  ∧ (int64 k = true → medicine w !! k = None →
     upload_prescription k file w =
       (Raise (HTTPException 404 "Medicine not found"), w)).
Proof.
  intros url. rewrite upload_prescription_eq.
  change (prescription_path k file) with url.
  split; [|split].
  - intros r -> ->. eexists. split; [done|].
    rewrite get_medicine_eq. simpl. rewrite !lookup_insert_eq. done.
  - by intros r msg -> ->.
  - by intros _ ->.
Qed.

Lemma upload_prescription_outcomes_witness :
  medicine pharmacy !! 1 = Some aspirin
  ∧ unwritable pharmacy !! "prescriptions/1_scan.png" = None
  ∧ ∃ w' : World,
      upload_prescription 1 scan_png pharmacy =
        (Return [("status", JString "uploaded");
                 ("file", JString "prescriptions/1_scan.png")], w')
      ∧ get_medicine 1 w' =
          (Return (set_prescription_url (Some "prescriptions/1_scan.png")
                     (MedicineRead.of_row 1 aspirin)), w')
      ∧ files w' !! "prescriptions/1_scan.png" = Some (UploadFile.file scan_png).
Proof.
  split; [by vm_compute|]. split; [by vm_compute|].
  refine (proj1 (upload_prescription_outcomes 1 scan_png pharmacy) aspirin _ _);
    by vm_compute.
Defined.

(** C5 as stated fails when the file cannot be opened: the record exists,
    the request ends in HTTP 500 and the record has no [prescription_url]. *)
Lemma upload_prescription_refused_write :
  medicine flat_disk_pharmacy !! 1 = Some aspirin
  ∧ upload_prescription 1 nested_png flat_disk_pharmacy =
      (Raise (HTTPException 500
                "Upload failed: [Errno 2] No such file or directory: 'prescriptions/1_rx/scan.png'"),
       flat_disk_pharmacy)
  ∧ MedicineBase.prescription_url
      <$> medicine (upload_prescription 1 nested_png flat_disk_pharmacy).2 !! 1
    = Some None.
Proof. repeat split; by vm_compute. Qed.

(** ** Records other than the one addressed *)

(** C10: [update_medicine], [delete_medicine] and [upload_prescription]
    aimed at one id leave the record under every other id as it was,
    whatever they answer. *)
Theorem other_records_unchanged (k k' : Z) (u : MedicineUpdate.t)
    (file : UploadFile.t) (w : World) :
  k' ≠ k →
  medicine (update_medicine k u w).2 !! k' = medicine w !! k'
  ∧ medicine (delete_medicine k w).2 !! k' = medicine w !! k'
  ∧ medicine (upload_prescription k file w).2 !! k' = medicine w !! k'.
Proof.
  intros Hne. split; [|split].
  - rewrite <-(fmap_M_snd Record_).
    by apply (route_frame (PUT_medicine k u) w k k').
  - rewrite <-(fmap_M_snd Dict).
    by apply (route_frame (DELETE_medicine k) w k k').
  - rewrite <-(fmap_M_snd Dict).
    by apply (route_frame (POST_upload_prescription k file) w k k').
Qed.

Lemma other_records_unchanged_witness :
  (2 : Z) ≠ 1
  ∧ medicine (update_medicine 1 new_dose pharmacy).2 !! 2 = medicine pharmacy !! 2
  ∧ medicine (delete_medicine 1 pharmacy).2 !! 2 = medicine pharmacy !! 2
  ∧ medicine (upload_prescription 1 scan_png pharmacy).2 !! 2
    = medicine pharmacy !! 2.
Proof.
  split; [done|].
  apply (other_records_unchanged 1 2 new_dose scan_png pharmacy). done.
Defined.

(** ** Runs of requests *)

Lemma created_cons (req : request) (reqs : list request) (w : World) :
  created (req :: reqs) w = created [req] w ++ created reqs (route req w).2.
Proof. simpl. by rewrite app_nil_r. Qed.

(** A key that is free stays free as long as no creation is given it. *)
Lemma run_absent (reqs : list request) (w : World) (k : Z) :
  medicine w !! k = None → k ∉ created reqs w →
  medicine (run reqs w) !! k = None.
Proof.
  revert w. induction reqs as [|req reqs IH]; intros w Hk Hnew; [done|].
  rewrite created_cons in Hnew. apply not_elem_of_app in Hnew as [Hreq Hrest].
  simpl. apply IH; [|done]. by apply route_absent.
Qed.

Lemma run_mutation_dom (reqs : list request) (w : World) :
  forallb mutation reqs = true →
  dom (medicine (run reqs w)) = dom (medicine w).
Proof.
  revert w. induction reqs as [|req reqs IH]; intros w Hall; [done|].
  simpl in Hall. apply andb_prop in Hall as [Hreq Hall]. simpl.
  rewrite IH by done. by apply route_mutation_dom.
Qed.

Lemma forallb_take {A} (f : A → bool) (n : nat) (l : list A) :
  forallb f l = true → forallb f (take n l) = true.
Proof.
  revert n. induction l as [|a l IH]; intros [|n] Hall; try done.
  simpl in *. apply andb_prop in Hall as [-> Hall]. by apply IH.
Qed.

(** The listing of a run is the insertion log of its requests. *)
Lemma listing_run (reqs : list request) (w : World) :
  listing (run reqs w) = insertion_log reqs w (listing w).
Proof.
  revert w. induction reqs as [|req reqs IH]; intros w; [done|].
  simpl. by rewrite IH, listing_route.
Qed.

(** ** Deleting *)

(** C4: once [delete_medicine] has deleted the record of an id, then after
    any further requests among which no creation was assigned that id,
    [get_medicine], [update_medicine] and [delete_medicine] on the id all
    end in HTTP 404. *)
Theorem deleted_then_not_found (k : Z) (w w1 : World)
    (d : list (string * json)) (reqs : list request) (u : MedicineUpdate.t) :
  delete_medicine k w = (Return d, w1) →
  k ∉ created reqs w1 →
  get_medicine k (run reqs w1) =
    (Raise (HTTPException 404 "Medicine not found"), run reqs w1)
  ∧ update_medicine k u (run reqs w1) =
      (Raise (HTTPException 404 "Medicine not found"), run reqs w1)
  ∧ delete_medicine k (run reqs w1) =
      (Raise (HTTPException 404 "Medicine not found"), run reqs w1)
  ∧ status (get_medicine k (run reqs w1)).1 = 404.
Proof.
  intros Hdel Hnew.
  assert (medicine w1 !! k = None) as Hgone.
  { rewrite delete_medicine_eq in Hdel.
    destruct (medicine w !! k); [|done].
    injection Hdel as _ <-. simpl. apply lookup_delete_eq. }
  pose proof (run_absent reqs w1 k Hgone Hnew) as Hk.
  rewrite get_medicine_eq, update_medicine_eq, delete_medicine_eq, Hk. done.
Qed.

Lemma deleted_then_not_found_witness :
  delete_medicine 1 pharmacy =
    (Return [("status", JString "deleted")], run [DELETE_medicine 1] pharmacy)
  ∧ created [POST_medicines aspirin; PUT_medicine 3 new_dose]
      (run [DELETE_medicine 1] pharmacy) = [3]
  ∧ get_medicine 1
      (run [POST_medicines aspirin; PUT_medicine 3 new_dose]
         (run [DELETE_medicine 1] pharmacy)) =
      (Raise (HTTPException 404 "Medicine not found"),
       run [POST_medicines aspirin; PUT_medicine 3 new_dose]
         (run [DELETE_medicine 1] pharmacy))
  ∧ update_medicine 1 new_dose
      (run [POST_medicines aspirin; PUT_medicine 3 new_dose]
         (run [DELETE_medicine 1] pharmacy)) =
      (Raise (HTTPException 404 "Medicine not found"),
       run [POST_medicines aspirin; PUT_medicine 3 new_dose]
         (run [DELETE_medicine 1] pharmacy))
  ∧ delete_medicine 1
      (run [POST_medicines aspirin; PUT_medicine 3 new_dose]
         (run [DELETE_medicine 1] pharmacy)) =
      (Raise (HTTPException 404 "Medicine not found"),
       run [POST_medicines aspirin; PUT_medicine 3 new_dose]
         (run [DELETE_medicine 1] pharmacy))
  ∧ status
      (get_medicine 1
         (run [POST_medicines aspirin; PUT_medicine 3 new_dose]
            (run [DELETE_medicine 1] pharmacy))).1 = 404.
Proof.
  split; [by vm_compute|]. split; [by vm_compute|].
  apply (deleted_then_not_found 1 pharmacy _ [("status", JString "deleted")]).
  - by vm_compute.
  - assert (created [POST_medicines aspirin; PUT_medicine 3 new_dose]
              (run [DELETE_medicine 1] pharmacy) = [3]) as -> by (by vm_compute).
    intros Hin. apply list_elem_of_singleton in Hin. discriminate Hin.
Defined.

(** ** The id of a record *)

(** C6: for every record [get_medicine] shows under an id and every
    sequence of [update_medicine] and [upload_prescription] requests,
    whatever ids and payloads they carry, after each of them the record is
    still found under that id and its [id] field is the same; no record of
    the table has moved to another id. *)
Theorem id_immutable (k : Z) (r : MedicineRead.t) (w : World)
    (reqs : list request) (n : nat) :
  get_medicine k w = (Return r, w) →
  forallb mutation reqs = true →
  ∃ r' : MedicineRead.t,
    get_medicine k (run (take n reqs) w) = (Return r', run (take n reqs) w)
    ∧ MedicineRead.id r' = MedicineRead.id r
    ∧ dom (medicine (run (take n reqs) w)) = dom (medicine w).
Proof.
  intros Hget Hall.
  pose proof (run_mutation_dom (take n reqs) w (forallb_take _ n _ Hall)) as Hdom.
  rewrite get_medicine_eq in Hget |- *.
  destruct (medicine w !! k) as [r0|] eqn:Hk; [|done].
  injection Hget as <-.
  assert (is_Some (medicine (run (take n reqs) w) !! k)) as [r1 ->].
  { apply elem_of_dom. rewrite Hdom. apply elem_of_dom. by rewrite Hk. }
  by eexists.
Qed.

Lemma id_immutable_witness :
  get_medicine 1 pharmacy = (Return (MedicineRead.of_row 1 aspirin), pharmacy)
  ∧ forallb mutation
      [PUT_medicine 1 new_dose; POST_upload_prescription 1 scan_png;
       PUT_medicine 2 name_null] = true
  ∧ ∃ r' : MedicineRead.t,
      get_medicine 1
        (run (take 2 [PUT_medicine 1 new_dose;
                      POST_upload_prescription 1 scan_png;
                      PUT_medicine 2 name_null]) pharmacy) =
        (Return r',
         run (take 2 [PUT_medicine 1 new_dose;
                      POST_upload_prescription 1 scan_png;
                      PUT_medicine 2 name_null]) pharmacy)
      ∧ MedicineRead.id r' = MedicineRead.id (MedicineRead.of_row 1 aspirin)
      ∧ dom (medicine
               (run (take 2 [PUT_medicine 1 new_dose;
                             POST_upload_prescription 1 scan_png;
                             PUT_medicine 2 name_null]) pharmacy))
        = dom (medicine pharmacy).
Proof.
  split; [by vm_compute|]. split; [done|].
  apply (id_immutable 1 (MedicineRead.of_row 1 aspirin) pharmacy); by vm_compute.
Defined.

(** The proviso of C4 is needed: the engine hands the key of a deleted last
    row to the next record. *)
Example deleted_id_reused :
  created [POST_medicines aspirin] (run [DELETE_medicine 2] pharmacy) = [2]
  ∧ (get_medicine 2
       (run [DELETE_medicine 2; POST_medicines aspirin] pharmacy)).1
    = Return (MedicineRead.of_row 2 aspirin).
Proof. split; by vm_compute. Qed.

(** ** The order of a listing *)

(** C7: starting from an empty table, after any sequence of requests,
    [list_medicines], with or without a filter, returns the records that
    pass the filter in the order of the insertion log: each record stands
    where its creation put it, after the records created before it and
    still present. *)
Theorem list_medicines_insertion_order (reqs : list request) (w0 : World)
    (time_of_day : option string) :
  medicine w0 = ∅ →
  list_medicines time_of_day (run reqs w0) =
    (Return (filter (λ r, wanted time_of_day r = true)
                    (insertion_log reqs w0 [])),
     run reqs w0).
Proof.
  intros Hempty. rewrite list_medicines_eq, listing_run.
  assert (listing w0 = []) as ->; [|done].
  unfold listing. rewrite Hempty. reflexivity.
Qed.

Lemma list_medicines_insertion_order_witness :
  medicine empty_world = ∅
  ∧ list_medicines None
      (run [POST_medicines aspirin; POST_medicines syrup;
            PUT_medicine 1 new_dose; DELETE_medicine 2;
            POST_medicines syrup; POST_medicines aspirin] empty_world) =
      (Return (filter (λ r, wanted None r = true)
                 (insertion_log
                    [POST_medicines aspirin; POST_medicines syrup;
                     PUT_medicine 1 new_dose; DELETE_medicine 2;
                     POST_medicines syrup; POST_medicines aspirin]
                    empty_world [])),
       run [POST_medicines aspirin; POST_medicines syrup;
            PUT_medicine 1 new_dose; DELETE_medicine 2;
            POST_medicines syrup; POST_medicines aspirin] empty_world).
Proof.
  split; [done|].
  apply (list_medicines_insertion_order _ empty_world None). done.
Defined.

(** ** Error results *)

(** C8, as amended: a request to a medicine endpoint ([create_medicine],
    [list_medicines], [get_medicine], [update_medicine], [delete_medicine],
    [upload_prescription]) that carries an id within the signed 64-bit range
    and, for an update, a payload without [null] for [name], [dose],
    [time_of_day] or [active], ends in an exception only in two cases: HTTP
    404 when the record the request refers to is absent, and HTTP 500 from
    [upload_prescription] when the file cannot be written.  The function
    [get_prescription] raises nothing but HTTP 404.  In each case the world
    is left unchanged. *)
Theorem route_error_results :
  (∀ (req : request) (w w' : World) (e : exn),
     regular req = true →
     route req w = (Raise e, w') →
     w' = w
     ∧ ((∃ k, (req = GET_medicine k ∨ target req = Some k)
              ∧ medicine w !! k = None
              ∧ e = HTTPException 404 "Medicine not found")
        ∨ (∃ k file strerror,
             req = POST_upload_prescription k file
             ∧ is_Some (medicine w !! k)
             ∧ unwritable w !! prescription_path k file = Some strerror
             ∧ e = HTTPException 500 ("Upload failed: " +:+ strerror))))
  ∧ (∀ (filename : string) (w w' : World) (e : exn),
       get_prescription filename w = (Raise e, w') →
       w' = w ∧ e = HTTPException 404 "Prescription not found").
Proof.
  split.
  - intros req w w' e Hreg.
    destruct req as [|fn|m|f|j|j u|j|j file]; try discriminate Hreg;
      route_eq; try done.
    + destruct (medicine w !! j) eqn:Hj; [done|]. intros [= <- <-].
      split; [done|]. left. exists j. split_and!; [by left|done..].
    + simpl in Hreg. apply andb_prop in Hreg as [_ Hnull].
      apply negb_true_iff in Hnull.
      destruct (medicine w !! j) as [r|] eqn:Hj.
      * by rewrite to_row_setattr, Hnull.
      * intros [= <- <-]. split; [done|]. left. exists j.
        split_and!; [by right|done..].
    + destruct (medicine w !! j) eqn:Hj; [done|]. intros [= <- <-].
      split; [done|]. left. exists j. split_and!; [by right|done..].
    + destruct (medicine w !! j) as [r|] eqn:Hj.
      * destruct (unwritable w !! _) as [msg|] eqn:Hmsg; [|done].
        intros [= <- <-]. split; [done|]. right.
        exists j, file, msg. by rewrite Hj.
      * intros [= <- <-]. split; [done|]. left. exists j.
        split_and!; [by right|done..].
  - intros fn w w' e. rewrite get_prescription_eq.
    destruct (files w !! _); [done|]. by intros [= <- <-].
Qed.

Lemma route_error_results_witness :
  regular (POST_upload_prescription 1 nested_png) = true
  ∧ route (POST_upload_prescription 1 nested_png) flat_disk_pharmacy =
      (Raise (HTTPException 500 "Upload failed: [Errno 2] No such file or directory: 'prescriptions/1_rx/scan.png'"),
       flat_disk_pharmacy)
  ∧ flat_disk_pharmacy = flat_disk_pharmacy
  ∧ ((∃ k, (POST_upload_prescription 1 nested_png = GET_medicine k
            ∨ target (POST_upload_prescription 1 nested_png) = Some k)
           ∧ medicine flat_disk_pharmacy !! k = None
           ∧ HTTPException 500 "Upload failed: [Errno 2] No such file or directory: 'prescriptions/1_rx/scan.png'"
             = HTTPException 404 "Medicine not found")
     ∨ (∃ k file strerror,
          POST_upload_prescription 1 nested_png = POST_upload_prescription k file
          ∧ is_Some (medicine flat_disk_pharmacy !! k)
          ∧ unwritable flat_disk_pharmacy !! prescription_path k file
            = Some strerror
          ∧ HTTPException 500 "Upload failed: [Errno 2] No such file or directory: 'prescriptions/1_rx/scan.png'"
            = HTTPException 500 ("Upload failed: " +:+ strerror))).
Proof.
  split; [by vm_compute|]. split; [by vm_compute|].
  apply (proj1 route_error_results (POST_upload_prescription 1 nested_png));
    by vm_compute.
Defined.

(** C8 as stated fails: [update_medicine] with a payload that supplies
    [name] as [null] ends in an integrity error, which is neither a
    not-found nor an upload failure, and the client receives HTTP 500. *)
Lemma update_medicine_null_name_is_500 :
  route (PUT_medicine 1 name_null) pharmacy = (Raise IntegrityError, pharmacy)
  ∧ status (route (PUT_medicine 1 name_null) pharmacy).1 = 500
  ∧ medicine pharmacy !! 1 = Some aspirin.
Proof. repeat split; by vm_compute. Qed.

(** ** The reading endpoints *)

(** X1: the endpoints behind [GET] ([serve_app], [get_prescription],
    [list_medicines], [get_medicine]) never change the table or the disk,
    whatever they answer. *)
Theorem safe_requests_change_nothing (req : request) (w : World) :
  safe req = true → (route req w).2 = w.
Proof.
  destruct req as [|fn|m|f|j|j u|j|j file]; try discriminate;
    intros _; route_eq.
  - done.
  - by destruct (files w !! _).
  - done.
  - by destruct (medicine w !! j).
Qed.

Lemma safe_requests_change_nothing_witness :
  safe (GET_medicine 7) = true
  ∧ (route (GET_medicine 7) pharmacy).2 = pharmacy.
Proof.
  split; [done|]. by apply (safe_requests_change_nothing (GET_medicine 7)).
Defined.

(** X3: after a successful upload for an id, the file is served back under
    the name made of the id and the client's file name: [get_prescription]
    answers with the path the record now holds as [prescription_url], and
    that path holds the uploaded bytes. *)
Theorem upload_then_get_prescription (k : Z) (file : UploadFile.t)
    (w w' : World) (d : list (string * json)) :
  upload_prescription k file w = (Return d, w') →
  get_prescription (format_int k +:+ "_" +:+ UploadFile.filename file) w' =
    (Return {| path := prescription_path k file; media_type := None |}, w')
  ∧ files w' !! prescription_path k file = Some (UploadFile.file file)
  ∧ MedicineBase.prescription_url <$> medicine w' !! k =
      Some (Some (prescription_path k file)).
Proof.
  rewrite upload_prescription_eq.
  destruct (medicine w !! k) as [r|]; [|done].
  destruct (unwritable w !! _); [done|]. intros [= _ <-].
  rewrite get_prescription_eq, upload_file_path. simpl.
  by rewrite !lookup_insert_eq.
Qed.

Lemma upload_then_get_prescription_witness :
  upload_prescription 1 scan_png pharmacy =
    (Return [("status", JString "uploaded");
             ("file", JString "prescriptions/1_scan.png")],
     run [POST_upload_prescription 1 scan_png] pharmacy)
  ∧ get_prescription "1_scan.png"
      (run [POST_upload_prescription 1 scan_png] pharmacy) =
      (Return {| path := "prescriptions/1_scan.png"; media_type := None |},
       run [POST_upload_prescription 1 scan_png] pharmacy)
  ∧ files (run [POST_upload_prescription 1 scan_png] pharmacy)
      !! "prescriptions/1_scan.png" = Some (UploadFile.file scan_png)
  ∧ MedicineBase.prescription_url
      <$> medicine (run [POST_upload_prescription 1 scan_png] pharmacy) !! 1
    = Some (Some "prescriptions/1_scan.png").
Proof.
  split; [by vm_compute|].
  apply (upload_then_get_prescription 1 scan_png pharmacy _
           [("status", JString "uploaded");
            ("file", JString "prescriptions/1_scan.png")]).
  by vm_compute.
Defined.

(** ** Creation and keys *)



Lemma created_POST (m : MedicineCreate) (reqs : list request) (w : World) :
  created (POST_medicines m :: reqs) w =
    next_rowid (medicine w)
      :: created reqs
           (with_medicine w (<[next_rowid (medicine w):=m]> (medicine w))).
Proof. simpl. route_eq. reflexivity. Qed.

Lemma next_rowid_empty : next_rowid ∅ = 1.
Proof. unfold next_rowid. by rewrite dom_empty_L, elements_empty. Qed.

(** The next key of a table whose keys are exactly 1..n is n+1. *)
Lemma next_rowid_initial_segment (t : gmap Z MedicineBase.t) (n : nat) :
  (∀ k, is_Some (t !! k) ↔ 1 ≤ k ≤ Z.of_nat n) →
  next_rowid t = Z.of_nat (S n).
Proof.
  intros Hdom. destruct n as [|n].
  - assert (t = ∅) as ->; [|apply next_rowid_empty].
    apply map_empty. intros k. apply eq_None_not_Some.
    rewrite Hdom. lia.
  - assert (is_Some (t !! Z.of_nat (S n))) as Hlast by (apply Hdom; lia).
    apply next_rowid_gt in Hlast.
    assert (is_Some (t !! (next_rowid t - 1))) as Hmax.
    { apply elem_of_dom, elem_of_elements. unfold next_rowid.
      destruct (elements (dom t)) as [|k0 ks] eqn:E.
      - assert (Z.of_nat (S n) ∈ elements (dom t)) as Hin.
        { apply elem_of_elements, elem_of_dom, Hdom. lia. }
        rewrite E in Hin. by apply elem_of_nil in Hin.
      - replace (foldr Z.max k0 ks + 1 - 1) with (foldr Z.max k0 ks) by lia.
        clear. induction ks as [|a ks IH]; simpl; [by left|].
        destruct (Z.max_spec a (foldr Z.max k0 ks)) as [[_ ->]|[_ ->]].
        + apply elem_of_cons in IH as [->|IH]; [by left|].
          right. by right.
        + right. by left. }
    apply Hdom in Hmax. lia.
Qed.

Lemma created_from_initial_segment (ms : list MedicineCreate) (w : World)
    (n : nat) :
  (∀ k, is_Some (medicine w !! k) ↔ 1 ≤ k ≤ Z.of_nat n) →
  created (POST_medicines <$> ms) w = Z.of_nat <$> seq (S n) (length ms).
Proof.
  revert w n. induction ms as [|m ms IH]; intros w n Hdom; [done|].
  rewrite fmap_cons, created_POST.
  rewrite (next_rowid_initial_segment _ n Hdom). simpl length.
  rewrite <-cons_seq, fmap_cons. f_equal.
  apply IH. intros k. simpl. rewrite lookup_insert_is_Some, Hdom. lia.
Qed.

(** X5: starting from an empty table, the records created by a sequence of
    [create_medicine] requests receive the ids 1, 2, 3, ... in the order of
    the requests. *)
Theorem created_ids_sequential (ms : list MedicineCreate) (w0 : World) :
  medicine w0 = ∅ →
  created (POST_medicines <$> ms) w0 = Z.of_nat <$> seq 1 (length ms).
Proof.
  intros Hempty. apply created_from_initial_segment.
  intros k. rewrite Hempty, lookup_empty. split; [by intros [? ?]|lia].
Qed.

Lemma created_ids_sequential_witness :
  medicine empty_world = ∅
  ∧ created (POST_medicines <$> [aspirin; syrup; aspirin]) empty_world =
      Z.of_nat <$> seq 1 (length [aspirin; syrup; aspirin]).
Proof.
  split; [done|].
  by apply (created_ids_sequential [aspirin; syrup; aspirin] empty_world).
Defined.

(** ** The shape of a listing *)

Lemma listing_ids (w : World) :
  MedicineRead.id <$> listing w = rowids (medicine w).
Proof.
  unfold listing. rewrite <-list_fmap_compose, <-rows_fst.
  apply list_fmap_ext. by intros i [j r] _.
Qed.

Lemma StronglySorted_le_lt (l : list Z) :
  StronglySorted Z.le l → NoDup l → StronglySorted Z.lt l.
Proof.
  induction 1 as [|x l HS IH Hx]; intros Hnd; [constructor|].
  apply NoDup_cons in Hnd as [Hnotin Hnd].
  constructor; [by apply IH|].
  rewrite Forall_forall in Hx |- *. intros y Hy.
  specialize (Hx y Hy). assert (x ≠ y) by (by intros ->). lia.
Qed.

Lemma StronglySorted_fmap_filter {A} (f : A → Z) (P : A → Prop)
    `{∀ x, Decision (P x)} (l : list A) :
  StronglySorted Z.lt (f <$> l) → StronglySorted Z.lt (f <$> filter P l).
Proof.
  induction l as [|a l IH]; [done|].
  rewrite fmap_cons, StronglySorted_cons, filter_cons. intros [Ha Hl].
  destruct (decide (P a)); [|by apply IH].
  rewrite fmap_cons. constructor; [by apply IH|].
  rewrite Forall_fmap, Forall_forall in Ha |- *.
  intros y Hy%list_elem_of_filter. apply Ha, Hy.
Qed.

Lemma filter_wanted_None (l : list MedicineRead.t) :
  filter (λ r, wanted None r = true) l = l.
Proof.
  induction l as [|x l IH]; [done|].
  by rewrite filter_cons, decide_True, IH.
Qed.

(** X6: whatever the filter, the ids of the records [list_medicines]
    returns are strictly ascending, so no record is listed twice; without a
    filter the list has as many records as the table has rows. *)
Theorem list_medicines_ascending_ids (time_of_day : option string) (w : World) :
  ∃ rs all : list MedicineRead.t,
    list_medicines time_of_day w = (Return rs, w)
    ∧ StronglySorted Z.lt (MedicineRead.id <$> rs)
    ∧ list_medicines None w = (Return all, w)
    ∧ length all = size (medicine w).
Proof.
  eexists _, _. split; [apply list_medicines_eq|].
  assert (StronglySorted Z.lt (MedicineRead.id <$> listing w)) as Hsorted.
  { rewrite listing_ids. apply StronglySorted_le_lt; [|apply NoDup_rowids].
    apply Sorted_StronglySorted; [apply _|apply Sorted_rowids]. }
  split; [by apply StronglySorted_fmap_filter|].
  split; [apply list_medicines_eq|].
  rewrite filter_wanted_None.
  rewrite <-(length_fmap MedicineRead.id), listing_ids. unfold rowids.
  rewrite merge_sort_Permutation. by rewrite <-size_dom.
Qed.

(** X7: for a non-empty filter, [list_medicines] returns exactly the records
    of the table whose [time_of_day] is the filter value: each of them, and
    nothing else. *)
Theorem list_medicines_exactly_matching (time_of_day : string) (w : World) :
  time_of_day ≠ "" →
  ∃ rs : list MedicineRead.t,
    list_medicines (Some time_of_day) w = (Return rs, w)
    ∧ ∀ x, x ∈ rs ↔
        ∃ r, medicine w !! MedicineRead.id x = Some r
             ∧ x = MedicineRead.of_row (MedicineRead.id x) r
             ∧ MedicineBase.time_of_day r = time_of_day.
Proof.
  intros Hne. eexists. split; [apply list_medicines_eq|].
  intros x. rewrite list_elem_of_filter, elem_of_listing.
  unfold wanted, truthy. rewrite bool_decide_eq_false_2 by done. simpl.
  rewrite bool_decide_eq_true. split.
  - intros [Ht (r & Hr & Hx)]. exists r. split_and!; [done..|].
    rewrite Hx in Ht. simpl in Ht. congruence.
  - intros (r & Hr & Hx & Ht). split; [|by exists r].
    rewrite Hx. simpl. by rewrite Ht.
Qed.

Lemma list_medicines_exactly_matching_witness :
  "morning" ≠ ""
  ∧ ∃ rs : list MedicineRead.t,
      list_medicines (Some "morning") pharmacy = (Return rs, pharmacy)
      ∧ ∀ x, x ∈ rs ↔
          ∃ r, medicine pharmacy !! MedicineRead.id x = Some r
               ∧ x = MedicineRead.of_row (MedicineRead.id x) r
               ∧ MedicineBase.time_of_day r = "morning".
Proof.
  split; [done|].
  by apply (list_medicines_exactly_matching "morning" pharmacy).
Defined.

(** ** More on updates *)

Lemma with_medicine_id (w : World) : with_medicine w (medicine w) = w.
Proof. by destruct w. Qed.

Lemma with_medicine_twice (w : World) (t1 t2 : gmap Z MedicineBase.t) :
  with_medicine (with_medicine w t1) t2 = with_medicine w t2.
Proof. done. Qed.

(** X8: a payload that sets no field changes nothing: for an existing
    record [update_medicine] returns the record as it is stored and the
    world stays the same. *)
Theorem update_medicine_nothing_set (k : Z) (w : World) (r : MedicineBase.t) :
  medicine w !! k = Some r →
  update_medicine k nothing_set w = (Return (MedicineRead.of_row k r), w).
Proof.
  intros Hk. rewrite update_medicine_eq, Hk.
  change (foldl setattr (Medicine.of_row k r) (dict_exclude_unset nothing_set))
    with (Medicine.of_row k r).
  rewrite to_row_of_row, insert_id by done. by rewrite with_medicine_id.
Qed.

Lemma update_medicine_nothing_set_witness :
  medicine pharmacy !! 2 = Some syrup
  ∧ update_medicine 2 nothing_set pharmacy =
      (Return (MedicineRead.of_row 2 syrup), pharmacy).
Proof.
  split; [by vm_compute|].
  apply (update_medicine_nothing_set 2 pharmacy syrup). by vm_compute.
Defined.

Lemma to_row_setattr_again k (r r' : MedicineBase.t) (u : MedicineUpdate.t) :
  Medicine.to_row (foldl setattr (Medicine.of_row k r) (dict_exclude_unset u))
    = Some r' →
  Medicine.to_row (foldl setattr (Medicine.of_row k r') (dict_exclude_unset u))
    = Some r'.
Proof.
  rewrite !to_row_setattr. destruct (nulls_required u); [done|].
  intros [= <-]. f_equal. simpl.
  destruct u as [[[un|]|] [[ud|]|] [[ut|]|] [uo|] [[ua|]|] [up|]];
    reflexivity.
Qed.

(** X9: a successful update can be repeated: sending the same payload
    again returns the same record and leaves the world as the first update
    left it. *)
Theorem update_medicine_idempotent (k : Z) (u : MedicineUpdate.t)
    (w w' : World) (x : MedicineRead.t) :
  update_medicine k u w = (Return x, w') →
  update_medicine k u w' = (Return x, w').
Proof.
  rewrite !update_medicine_eq.
  destruct (medicine w !! k) as [r|]; [|done].
  destruct (Medicine.to_row _) as [r'|] eqn:Hrow; [|done].
  intros [= <- <-]. simpl. rewrite lookup_insert_eq.
  rewrite (to_row_setattr_again _ _ _ _ Hrow).
  by rewrite with_medicine_twice, insert_insert_eq.
Qed.

Lemma update_medicine_idempotent_witness :
  update_medicine 1 new_dose pharmacy =
    (Return (MedicineRead.mk 1 "Aspirin" "200 mg" "morning" None true None),
     run [PUT_medicine 1 new_dose] pharmacy)
  ∧ update_medicine 1 new_dose (run [PUT_medicine 1 new_dose] pharmacy) =
      (Return (MedicineRead.mk 1 "Aspirin" "200 mg" "morning" None true None),
       run [PUT_medicine 1 new_dose] pharmacy).
Proof.
  split; [by vm_compute|].
  apply (update_medicine_idempotent 1 new_dose pharmacy). by vm_compute.
Defined.

(** X10: what a successful update returns is what a later read shows:
    [get_medicine] on the id returns the record [update_medicine]
    returned. *)
Theorem update_medicine_then_get_medicine (k : Z) (u : MedicineUpdate.t)
    (w w' : World) (x : MedicineRead.t) :
  update_medicine k u w = (Return x, w') →
  get_medicine k w' = (Return x, w').
Proof.
  rewrite update_medicine_eq, get_medicine_eq.
  destruct (medicine w !! k) as [r|]; [|done].
  destruct (Medicine.to_row _) as [r'|]; [|done].
  intros [= <- <-]. simpl. by rewrite lookup_insert_eq.
Qed.

Lemma update_medicine_then_get_medicine_witness :
  update_medicine 1 new_dose pharmacy =
    (Return (MedicineRead.mk 1 "Aspirin" "200 mg" "morning" None true None),
     run [PUT_medicine 1 new_dose] pharmacy)
  ∧ get_medicine 1 (run [PUT_medicine 1 new_dose] pharmacy) =
      (Return (MedicineRead.mk 1 "Aspirin" "200 mg" "morning" None true None),
       run [PUT_medicine 1 new_dose] pharmacy).
Proof.
  split; [by vm_compute|].
  apply (update_medicine_then_get_medicine 1 new_dose pharmacy). by vm_compute.
Defined.

(** ** The disk *)

Lemma route_files_frame (req : request) (w : World) (p : string) :
  (∀ k file, req = POST_upload_prescription k file →
             prescription_path k file ≠ p) →
  files (route req w).2 !! p = files w !! p.
Proof.
  intros Hp. destruct req as [|fn|m|f|j|j u|j|j file]; route_eq.
  - done.
  - by destruct (files w !! _).
  - done.
  - done.
  - by destruct (medicine w !! j).
  - destruct (medicine w !! j); [|done].
    by destruct (Medicine.to_row _).
  - by destruct (medicine w !! j).
  - destruct (medicine w !! j); [|done].
    destruct (unwritable w !! _); [done|]. simpl.
    rewrite lookup_insert_ne; [done|]. by apply Hp.
Qed.

Lemma route_keeps_files (req : request) (w : World) (p : string) :
  is_Some (files w !! p) → is_Some (files (route req w).2 !! p).
Proof.
  intros Hp.
  destruct req as [|fn|m|f|j|j u|j|j file];
    try (by rewrite route_files_frame).
  route_eq. destruct (medicine w !! j); [|done].
  destruct (unwritable w !! _); [done|]. simpl.
  apply lookup_insert_is_Some'. by right.
Qed.

(** X12: no endpoint removes a file: a path that exists on the disk still
    exists after any sequence of requests, also after the record it was
    uploaded for has been deleted. *)
Theorem files_never_removed (reqs : list request) (w : World) (p : string) :
  is_Some (files w !! p) → is_Some (files (run reqs w) !! p).
Proof.
  revert w. induction reqs as [|req reqs IH]; intros w Hp; [done|].
  simpl. by apply IH, route_keeps_files.
Qed.

Lemma files_never_removed_witness :
  files (run [POST_upload_prescription 1 scan_png] pharmacy)
    !! "prescriptions/1_scan.png" = Some (UploadFile.file scan_png)
  ∧ (get_medicine 1
       (run [DELETE_medicine 1]
          (run [POST_upload_prescription 1 scan_png] pharmacy))).1
    = Raise (HTTPException 404 "Medicine not found")
  ∧ is_Some (files (run [DELETE_medicine 1]
                      (run [POST_upload_prescription 1 scan_png] pharmacy))
               !! "prescriptions/1_scan.png").
Proof.
  split; [by vm_compute|]. split; [by vm_compute|].
  apply (files_never_removed [DELETE_medicine 1]). eexists. by vm_compute.
Defined.

(** X13: an upload under the same id and file name overwrites: the second
    upload succeeds with the same answer, the path holds the bytes of the
    second file, and the table is as the first upload left it. *)
Theorem upload_prescription_overwrites (k : Z) (file1 file2 : UploadFile.t)
    (w w1 : World) (d : list (string * json)) :
  upload_prescription k file1 w = (Return d, w1) →
  UploadFile.filename file2 = UploadFile.filename file1 →
  ∃ w2 : World,
    upload_prescription k file2 w1 = (Return d, w2)
    ∧ files w2 !! prescription_path k file1 = Some (UploadFile.file file2)
    ∧ medicine w2 = medicine w1.
Proof.
  intros Hfirst Hname.
  assert (prescription_path k file2 = prescription_path k file1) as Hpath
    by (unfold prescription_path; by rewrite Hname).
  rewrite upload_prescription_eq in Hfirst |- *. rewrite Hpath.
  destruct (medicine w !! k) as [r|]; [|done].
  destruct (unwritable w !! _) eqn:Hw; [done|].
  injection Hfirst as <- <-. simpl. rewrite lookup_insert_eq, Hw.
  eexists. split; [done|]. simpl. rewrite lookup_insert_eq. split; [done|].
  by rewrite insert_insert_eq.
Qed.

Lemma upload_prescription_overwrites_witness :
  upload_prescription 1 scan_png pharmacy =
    (Return [("status", JString "uploaded");
             ("file", JString "prescriptions/1_scan.png")],
     run [POST_upload_prescription 1 scan_png] pharmacy)
  ∧ UploadFile.filename (UploadFile.mk "scan.png" [Byte.x00])
    = UploadFile.filename scan_png
  ∧ ∃ w2 : World,
      upload_prescription 1 (UploadFile.mk "scan.png" [Byte.x00])
        (run [POST_upload_prescription 1 scan_png] pharmacy) =
        (Return [("status", JString "uploaded");
                 ("file", JString "prescriptions/1_scan.png")], w2)
      ∧ files w2 !! prescription_path 1 scan_png = Some [Byte.x00]
      ∧ medicine w2
        = medicine (run [POST_upload_prescription 1 scan_png] pharmacy).
Proof.
  split; [by vm_compute|]. split; [done|].
  apply (upload_prescription_overwrites 1 scan_png
           (UploadFile.mk "scan.png" [Byte.x00]) pharmacy);
    [by vm_compute|done].
Defined.

(** ** File names *)

Lemma format_int_inj (n n' : Z) : format_int n = format_int n' → n = n'.
Proof.
  assert (∀ z, NilZero.int_of_string (format_int z) = Some (Z.to_int z)) as Hp.
  { intros z. apply NilZero.isi; destruct z as [|q|q]; simpl;
      try discriminate;
      intros [= E]; by apply DecimalPos.Unsigned.to_uint_nonnil in E. }
  intros Heq. apply to_int_inj.
  pose proof (Hp n) as H1. rewrite Heq, Hp in H1. congruence.
Qed.

Lemma string_of_uint_no_underscore (d : Decimal.uint) (c : ascii) :
  In c (list_ascii_of_string (NilEmpty.string_of_uint d)) → c ≠ "_"%char.
Proof.
  induction d as [|d IH|d IH|d IH|d IH|d IH|d IH|d IH|d IH|d IH|d IH]; simpl;
    [done|intros [<-|Hin]; [discriminate|by apply IH]..].
Qed.

Lemma format_int_no_underscore (n : Z) (c : ascii) :
  In c (list_ascii_of_string (format_int n)) → c ≠ "_"%char.
Proof.
  assert (∀ d, In c (list_ascii_of_string (NilZero.string_of_uint d)) →
               c ≠ "_"%char) as Hu.
  { intros d Hin.
    destruct d;
      [simpl in Hin; destruct Hin as [<-|[]]; discriminate
      |exact (string_of_uint_no_underscore _ _ Hin)..]. }
  unfold format_int. destruct (Z.to_int n) as [d|d]; [exact (Hu d)|].
  intros [<-|Hin]; [discriminate|exact (Hu d Hin)].
Qed.

(** Two strings cut at their first underscore agree piece by piece. *)
Lemma app_underscore_inj (s1 s2 t1 t2 : string) :
  (∀ c, In c (list_ascii_of_string s1) → c ≠ "_"%char) →
  (∀ c, In c (list_ascii_of_string s2) → c ≠ "_"%char) →
  s1 +:+ String "_" t1 = s2 +:+ String "_" t2 →
  s1 = s2 ∧ t1 = t2.
Proof.
  revert s2. induction s1 as [|a s1 IH]; intros [|b s2] H1 H2; simpl.
  - by intros [= ->].
  - intros [= <- _]. exfalso. apply (H2 "_"%char); [by left|done].
  - intros [= -> _]. exfalso. apply (H1 "_"%char); [by left|done].
  - intros [= -> Heq]. destruct (IH s2) as [-> ->]; [| |done..].
    + intros c Hc. apply H1. by right.
    + intros c Hc. apply H2. by right.
Qed.

(** X14: the name an upload is stored under determines the id and the
    client's file name: two uploads land on the same path only when they
    carry the same id and the same file name. *)
Theorem prescription_path_inj (k k' : Z) (file file' : UploadFile.t) :
  prescription_path k file = prescription_path k' file' →
  k = k' ∧ UploadFile.filename file = UploadFile.filename file'.
Proof.
  unfold prescription_path. intros Heq. simpl in Heq.
  injection Heq as Heq.
  apply app_underscore_inj in Heq as [Hk Hf];
    [|apply format_int_no_underscore..].
  split; [by apply format_int_inj|done].
Qed.

Lemma prescription_path_inj_witness :
  prescription_path 1 scan_png
  = prescription_path 1 (UploadFile.mk "scan.png" [Byte.x00])
  ∧ (1 : Z) = 1
  ∧ UploadFile.filename scan_png
    = UploadFile.filename (UploadFile.mk "scan.png" [Byte.x00]).
Proof.
  split; [done|].
  by apply (prescription_path_inj 1 1 scan_png
              (UploadFile.mk "scan.png" [Byte.x00])).
Defined.

(** ** Deleting and listing *)

(** X15: deleting an existing record answers with the status [deleted],
    leaves the table one record smaller, and a listing taken afterwards is
    the listing taken before without that record, the others in the same
    order. *)
Theorem delete_medicine_then_list (k : Z) (r : MedicineBase.t)
    (time_of_day : option string) (w : World) :
  medicine w !! k = Some r →
  ∃ (w' : World) (before after : list MedicineRead.t),
    delete_medicine k w = (Return [("status", JString "deleted")], w')
    ∧ S (size (medicine w')) = size (medicine w)
    ∧ list_medicines time_of_day w = (Return before, w)
    ∧ list_medicines time_of_day w' = (Return after, w')
    ∧ after = filter (λ x, MedicineRead.id x ≠ k) before.
Proof.
  intros Hk. eexists _, _, _. rewrite delete_medicine_eq, Hk.
  split; [done|]. simpl. split.
  { rewrite map_size_delete_Some by done. apply Nat.succ_pred_pos.
    destruct (size (medicine w)) eqn:E; [|lia].
    apply map_size_empty_inv in E. by rewrite E in Hk. }
  split; [apply list_medicines_eq|].
  split; [apply list_medicines_eq|].
  rewrite listing_delete, !list_filter_filter.
  apply list_filter_iff. tauto.
Qed.

Lemma delete_medicine_then_list_witness :
  medicine pharmacy !! 1 = Some aspirin
  ∧ ∃ (w' : World) (before after : list MedicineRead.t),
      delete_medicine 1 pharmacy = (Return [("status", JString "deleted")], w')
      ∧ S (size (medicine w')) = size (medicine pharmacy)
      ∧ list_medicines None pharmacy = (Return before, pharmacy)
      ∧ list_medicines None w' = (Return after, w')
      ∧ after = filter (λ x, MedicineRead.id x ≠ 1) before.
Proof.
  split; [by vm_compute|].
  apply (delete_medicine_then_list 1 aspirin None pharmacy). by vm_compute.
Defined.
